(** * sregistry: push admission, freeze toggle and webhook views

    A shallow embedding of the views of
    [shub/plugins/google_build/views.py] and
    [shub/apps/main/views/containers.py].

    The object-relational store is a record of tables, each a finite map
    from primary key to row.  A view is a function in a state-and-exception
    monad over that store.  Helpers that live in other modules of the
    registry (the signed request validator, the permission checker, the
    GitHub handler, ...) are section variables. *)

From Stdlib Require Import String ZArith List Bool Lia.
From stdpp Require Import gmap strings list fin_maps.

Local Open Scope string_scope.
Local Open Scope Z_scope.

(** ** Python values as they are rendered by ["%s" % x] *)

(** [str(x)] for a value that is either a string or [None]. *)
Definition py_str (x : option string) : string :=
  match x with
  | Some s => s
  | None => "None"
  end.

(** [str(b)] for a Python boolean. *)
Definition py_bool_str (b : bool) : string :=
  if b then "True" else "False".

(** [re.search(pattern, s) is not None] for a pattern without
    metacharacters: the pattern occurs somewhere in [s]. *)
Fixpoint re_search (pattern s : string) : bool :=
  String.prefix pattern s ||
  match s with
  | EmptyString => false
  | String _ rest => re_search pattern rest
  end.

(** ** Exceptions *)

Inductive exn : Type :=
| PermissionDenied (detail : string)
    (* rest_framework.exceptions.PermissionDenied *)
| DoesNotExist (model : string)
| MultipleObjectsReturned (model : string)
| AttributeError (attribute : string)
| NameError (name : string)
| KeyError (key : string)
| DecodeError.
    (* whatever bytes.decode, json.loads or ast.literal_eval raise *)

(** The HTTP status the framework answers an exception with:
    [PermissionDenied.status_code] is 403, and an exception that no handler
    knows ends in a 500. *)
Definition status_code (e : exn) : Z :=
  match e with
  | PermissionDenied _ => 403
  | _ => 500
  end.

(** ** Rows of the store *)

Module User.
Record t : Type := { id : Z; username : string }.
End User.

Module Collection.
Record t : Type := { name : string; owners : list Z; private : bool }.
End Collection.

Module Container.
Record t : Type :=
  { collection : Z;          (* foreign key: primary key of a Collection *)
    name : string;
    tag : string;
    frozen : bool;
    version : option string }.
End Container.

Module RecipeFile.
Record t : Type :=
  { datafile : option string;
    collection : option string;
    tag : string;
    name : option string;
    owner_id : Z }.
End RecipeFile.

(** ** Requests and responses *)

Record Request : Type :=
  { method : string;
    user : option User.t;               (* None: the anonymous user *)
    META : gmap string string;
    data : gmap string string;
    body : string }.

Inductive HttpResponse : Type :=
| JsonResponseMessage (message : string) (status : option Z)
                      (status_message : option string)
| redirect (to : string) (cid : option Z)
| redirect_to_login
| HttpResponseOther (content : string).

(** ** Jobs handed to the queue *)

Inductive JobFunc : Type := complete_build | delete_build.

Section Registry.

(** The value [ast.literal_eval] produces from a notification body. *)
Context {Params : Type}.

Record Job : Type :=
  { delay_seconds : Z;
    func : JobFunc;
    job_cid : Z;
    job_params : option Params }.

(** ** The store, the scheduler and the flash messages *)

Record World : Type :=
  { collections : gmap Z Collection.t;
    containers : gmap Z Container.t;
    recipes : list RecipeFile.t;
    scheduled : list Job;
    flash : list string }.

(** ** A state-and-exception monad *)

Definition M (A : Type) : Type := World -> (exn + A) * World.

Definition ret {A : Type} (a : A) : M A := fun w => (inr a, w).

Definition raise {A : Type} (e : exn) : M A := fun w => (inl e, w).

Definition bind {A B : Type} (m : M A) (k : A -> M B) : M B :=
  fun w =>
    match m w with
    | (inr a, w') => k a w'
    | (inl e, w') => (inl e, w')
    end.

Definition get_world : M World := fun w => (inr w, w).

Definition modify (f : World -> World) : M unit := fun w => (inr tt, f w).

End Registry.

Arguments Job : clear implicits.
Arguments World : clear implicits.
Arguments M : clear implicits.

Notation "'let!' x ':=' m 'in' k" := (bind m (fun x => k))
  (at level 10, x name, m at level 100, k at level 200).

(** ** Queries on a table *)

Inductive QueryResult (A : Type) : Type :=
| Found (pk : Z) (row : A)
| NoneFound
| ManyFound.

Arguments Found {A} pk row.
Arguments NoneFound {A}.
Arguments ManyFound {A}.

(** [Model.objects.get(...)]: the one row that satisfies the lookup;
    [DoesNotExist] and [MultipleObjectsReturned] are left to the caller. *)
Definition objects_get {A : Type} (lookup : A -> bool) (table : gmap Z A)
  : QueryResult A :=
  match List.filter (fun kv => lookup (snd kv)) (map_to_list table) with
  | [] => NoneFound
  | [(pk, row)] => Found pk row
  | _ => ManyFound
  end.

(** ** Small actions on the world *)

Section Actions.

Context {Params : Type}.

Local Abbreviation World := (World Params).
Local Abbreviation M := (M Params).

(** [messages.info(request, text)] *)
Definition messages_info (text : string) : M unit :=
  modify (fun w =>
    {| collections := collections w;
       containers := containers w;
       recipes := recipes w;
       scheduled := scheduled w;
       flash := (flash w ++ [text])%list |}).

(** [container.save()] for the row fetched under primary key [cid]. *)
Definition container_save (cid : Z) (container : Container.t) : M unit :=
  modify (fun w =>
    {| collections := collections w;
       containers := <[cid := container]> (containers w);
       recipes := recipes w;
       scheduled := scheduled w;
       flash := flash w |}).

(** [serializer.save(...)]: one more RecipeFile row. *)
Definition serializer_save (recipe : RecipeFile.t) : M unit :=
  modify (fun w =>
    {| collections := collections w;
       containers := containers w;
       recipes := (recipes w ++ [recipe])%list;
       scheduled := scheduled w;
       flash := flash w |}).

(** [scheduler.enqueue_in(timedelta(seconds=d), f, cid=..., params=...)] *)
Definition enqueue_in (d : Z) (f : JobFunc) (cid : Z) (params : Params)
  : M unit :=
  modify (fun w =>
    {| collections := collections w;
       containers := containers w;
       recipes := recipes w;
       scheduled := (scheduled w ++
                     [{| delay_seconds := d; func := f; job_cid := cid;
                         job_params := Some params |}])%list;
       flash := flash w |}).

(** The decorator [@login_required]. *)
Definition login_required {A : Type}
    (view : Request -> A -> M HttpResponse)
    (request : Request) (a : A) : M HttpResponse :=
  match user request with
  | Some _ => view request a
  | None => ret redirect_to_login
  end.

(** *** shub/apps/main/views/containers.py *)

(** [get_container].  The module never imports [Http404], so the [raise]
    in the handler of [Container.DoesNotExist] ends in a [NameError]. *)
Definition get_container (cid : Z) : M Container.t :=
  let! w := get_world in
  match containers w !! cid with
  | Some container => ret container
  | None => raise (NameError "Http404")
  end.

Section Freeze.

(** [container.has_edit_permission(request)], a method of the model. *)
Variable has_edit_permission : Container.t -> Request -> bool.

(** The body of [change_freeze_status]; [now] is what
    [datetime.now().isoformat()] gives during the call. *)
Definition change_freeze_status_view (now : string)
    (request : Request) (cid : Z) : M HttpResponse :=
  let! container := get_container cid in
  let edit_permission := has_edit_permission container request in
  if edit_permission then
    let container :=
      match Container.version container, Container.frozen container with
      | None, false =>
          {| Container.collection := Container.collection container;
             Container.name := Container.name container;
             Container.tag := Container.tag container;
             Container.frozen := Container.frozen container;
             Container.version := Some now |}
      | _, _ => container
      end in
    let container :=
      {| Container.collection := Container.collection container;
         Container.name := Container.name container;
         Container.tag := Container.tag container;
         Container.frozen := negb (Container.frozen container);
         Container.version := Container.version container |} in
    let! _ := container_save cid container in
    let! _ := messages_info ("Container frozen set to " +:+
                             py_bool_str (Container.frozen container) +:+
                             ".") in
    ret (redirect "container_details" (Some cid))
  else
    let! _ := messages_info
                "You do not have permissions to perform this operation." in
    ret (redirect "container_details" (Some cid)).

Definition change_freeze_status (now : string)
  : Request -> Z -> M HttpResponse :=
  login_required (change_freeze_status_view now).

(** A sequence of toggle requests on one container, each with its own
    clock reading; a request that ends in an exception does not stop the
    ones after it. *)
Fixpoint freeze_requests (cid : Z) (ops : list (string * Request))
    (w : World) : World :=
  match ops with
  | [] => w
  | (now, request) :: ops' =>
      freeze_requests cid ops' (snd (change_freeze_status now request cid w))
  end.

End Freeze.

(** The row a permitted toggle writes back. *)
Definition toggled (now : string) (c : Container.t) : Container.t :=
  {| Container.collection := Container.collection c;
     Container.name := Container.name c;
     Container.tag := Container.tag c;
     Container.frozen := negb (Container.frozen c);
     Container.version :=
       match Container.version c, Container.frozen c with
       | None, false => Some now
       | v, _ => v
       end |}.

(** *** shub/plugins/google_build/views.py *)

Section Push.

(** Helpers of [shub.apps.api.utils], of the user and container models and
    of [sregistry.main.registry.auth], used here as the view uses them. *)
Variable get_request_user : string -> option User.t.
Variable validate_request : string -> string -> string -> string -> bool.
Variable has_create_permission : User.t -> bool.
Variable has_permission : string -> Collection.t -> bool -> bool.
Variable get_short_uri : Container.t -> string.

(** The payload the view signs: ["build|%s|%s|%s|%s|"]. *)
Definition build_payload (collection_name : option string)
    (timestamp : string) (name : option string) (tag : string) : string :=
  "build|" +:+ py_str collection_name +:+ "|" +:+ timestamp +:+ "|" +:+
  py_str name +:+ "|" +:+ tag +:+ "|".

(** [Collection.objects.get(name=collection_name)] *)
Definition collection_lookup (collection_name : option string)
    (c : Collection.t) : bool :=
  bool_decide (Some (Collection.name c) = collection_name).

(** [Container.objects.get(collection=collection, name=name, tag=tag)] *)
Definition container_lookup (collection_pk : Z) (name : option string)
    (tag : string) (c : Container.t) : bool :=
  bool_decide (Container.collection c = collection_pk) &&
  bool_decide (Some (Container.name c) = name) &&
  bool_decide (Container.tag c = tag).

(** The row [serializer.save] is asked to write. *)
Definition recipe_of_request (request : Request) (owner : User.t)
  : RecipeFile.t :=
  {| RecipeFile.datafile := data request !! "datafile";
     RecipeFile.collection := data request !! "collection";
     RecipeFile.tag := default "latest" (data request !! "tag");
     RecipeFile.name := data request !! "name";
     RecipeFile.owner_id := User.id owner |}.

(** [RecipePushViewSet.perform_create]; [timestamp] is what
    [generate_timestamp()] gives during the call. *)
Definition perform_create (timestamp : string) (request : Request)
  : M unit :=
  let tag := default "latest" (data request !! "tag") in
  let name := data request !! "name" in
  let auth := META request !! "HTTP_AUTHORIZATION" in
  let collection_name := data request !! "collection" in
  match auth with
  | None => raise (PermissionDenied "Authentication Required")
  | Some auth =>
    let owner := get_request_user auth in
    let payload := build_payload collection_name timestamp name tag in
    if negb (validate_request auth payload "build" timestamp) then
      raise (PermissionDenied "Unauthorized")
    else
    match owner with
    | None => raise (AttributeError "has_create_permission")
    | Some owner =>
      if negb (has_create_permission owner) then
        raise (PermissionDenied "Unauthorized Create Permission")
      else
      let! w := get_world in
      match objects_get (collection_lookup collection_name)
                        (collections w) with
      | NoneFound => raise (PermissionDenied "Not Found")
      | ManyFound => raise (MultipleObjectsReturned "Collection")
      | Found collection_pk collection =>
        if negb (bool_decide (User.id owner ∈ Collection.owners collection))
        then raise (PermissionDenied "Unauthorized")
        else
        if negb (has_permission auth collection false) then
          raise (PermissionDenied "Unauthorized")
        else
        match objects_get (container_lookup collection_pk name tag)
                          (containers w) with
        | ManyFound => raise (MultipleObjectsReturned "Container")
        | NoneFound => serializer_save (recipe_of_request request owner)
        | Found _ container =>
          if negb (Container.frozen container) then
            serializer_save (recipe_of_request request owner)
          else
            raise (PermissionDenied
                     (get_short_uri container +:+
                      " is frozen, push not allowed."))
        end
      end
    end
  end.

(** A sequence of pushes, each with its own timestamp; the outcomes are
    collected in order. *)
Fixpoint pushes (reqs : list (string * Request)) (w : World)
  : list (exn + unit) * World :=
  match reqs with
  | [] => ([], w)
  | (timestamp, request) :: reqs' =>
      let (r, w') := perform_create timestamp request w in
      let (rs, w'') := pushes reqs' w' in
      (r :: rs, w'')
  end.

(** The request carries a token, the token resolves to [owner], the signed
    payload validates and [owner] may create. *)
Definition authenticated (timestamp : string) (request : Request)
    (auth : string) (owner : User.t) : Prop :=
  META request !! "HTTP_AUTHORIZATION" = Some auth /\
  get_request_user auth = Some owner /\
  validate_request auth
    (build_payload (data request !! "collection") timestamp
                   (data request !! "name")
                   (default "latest" (data request !! "tag")))
    "build" timestamp = true /\
  has_create_permission owner = true.

(** On top of [authenticated]: the collection resolves, [owner] is one of
    its owners and has push permission. *)
Definition passes_checks (timestamp : string) (request : Request) (w : World)
    (auth : string) (owner : User.t) (pk : Z) (coll : Collection.t) : Prop :=
  authenticated timestamp request auth owner /\
  objects_get (collection_lookup (data request !! "collection"))
              (collections w) = Found pk coll /\
  User.id owner ∈ Collection.owners coll /\
  has_permission auth coll false = true.

(** The container lookup of a request in a resolved collection. *)
Definition target (request : Request) (pk : Z) (w : World)
  : QueryResult Container.t :=
  objects_get (container_lookup pk (data request !! "name")
                                (default "latest" (data request !! "tag")))
              (containers w).

End Push.

Section Hooks.

(** [ast.literal_eval(json.loads(body.decode('utf-8')))]: the parameters,
    or the exception one of the three calls ends in. *)
Variable load_params : string -> exn + Params.

(** [receive_github_hook] of the [github] module. *)
Variable receive_github_hook : Request -> M HttpResponse.

(** [receive_build] *)
Definition receive_build (request : Request) (cid : Z) : M HttpResponse :=
  let! _ :=
    (if decide (method request = "POST") then
       let! w := get_world in
       match containers w !! cid with
       | None => raise (DoesNotExist "Container")
       | Some container =>
         match load_params (body request) with
         | inl e => raise e
         | inr params =>
           match META request !! "CONTENT_LENGTH" with
           | None => raise (KeyError "CONTENT_LENGTH")
           | Some content_length =>
             if decide (content_length = "47") then
               enqueue_in 10 complete_build cid params
             else ret tt
           end
         end
       end
     else ret tt) in
  ret (JsonResponseMessage "Notification Received" (Some 200)
                           (Some "Received")).

(** [receive_hook] *)
Definition receive_hook (request : Request) : M HttpResponse :=
  if decide (method request = "POST") then
    match META request !! "HTTP_USER_AGENT" with
    | None => raise (KeyError "HTTP_USER_AGENT")
    | Some user_agent =>
      if re_search "GitHub-Hookshot" user_agent then
        receive_github_hook request
      else ret (JsonResponseMessage "Invalid request." None None)
    end
  else ret (JsonResponseMessage "Invalid request." None None).

End Hooks.

End Actions.

(** ** The other views of the two modules *)

(** A job put on the default queue by [django_rq.enqueue]. *)
Record Enqueued : Type := { enq_func : JobFunc; enq_cid : Z }.

(** A repository as the GitHub API describes it. *)
Abbreviation Repo := (gmap string string).

(** The values a view puts in a template context; [Obj] stands for the
    Python objects the views only pass on (label querysets, logs, trees). *)
Inductive ContextValue (Obj : Type) : Type :=
| ctx_container (cid : Z) (container : Container.t)
| ctx_object (o : Obj)
| ctx_repos (repos : list Repo).

Arguments ctx_container {Obj} cid container.
Arguments ctx_object {Obj} o.
Arguments ctx_repos {Obj} repos.

(** What a page view returns: [render(request, template, context)] or
    another response. *)
Inductive PageResult (Obj : Type) : Type :=
| render (template : string) (context : list (string * ContextValue Obj))
| respond (response : HttpResponse).

Arguments render {Obj} template context.
Arguments respond {Obj} response.

Section MoreActions.

Context {Params : Type}.

Local Abbreviation World := (World Params).
Local Abbreviation M := (M Params).

(** The world together with the default queue. *)
Record Site : Type := { world : World; default_queue : list Enqueued }.

(** [container.delete()] for the row fetched under primary key [cid]. *)
Definition container_delete (cid : Z) : M unit :=
  modify (fun w =>
    {| collections := collections w;
       containers := delete cid (containers w);
       recipes := recipes w;
       scheduled := scheduled w;
       flash := flash w |}).

(** [container.collection]: the row the foreign key points to. *)
Definition container_collection (container : Container.t)
  : M Collection.t :=
  let! w := get_world in
  match collections w !! Container.collection container with
  | Some collection => ret collection
  | None => raise (DoesNotExist "Collection")
  end.

(** [Collection.objects.filter(owners=user)], as the list of names. *)
Definition collection_names_owned_by (u : User.t) (w : World)
  : list string :=
  List.map (fun kv => Collection.name (snd kv))
    (List.filter
       (fun kv => bool_decide (User.id u ∈ Collection.owners (snd kv)))
       (map_to_list (collections w))).

Section GoogleBuildViews.

Context {Obj : Type}.

(** [container.has_edit_permission], [collection.get_absolute_url] and
    [list_repos] of the [github] module. *)
Variable has_edit_permission : Container.t -> Request -> bool.
Variable get_absolute_url : Collection.t -> string.
Variable list_repos : User.t -> list Repo.

(** [delete_container] of the plugin, under [@login_required]. *)
Definition delete_container (request : Request) (cid : Z) (s : Site)
  : (exn + HttpResponse) * Site :=
  match user request with
  | None => (inr redirect_to_login, s)
  | Some _ =>
    match get_container cid (world s) with
    | (inl e, w) => (inl e, {| world := w; default_queue := default_queue s |})
    | (inr container, w) =>
      if negb (has_edit_permission container request) then
        let w := snd (messages_info "This action is not permitted." w) in
        (inr (redirect "collections" None),
         {| world := w; default_queue := default_queue s |})
      else
        let queue :=
          (default_queue s ++
           [{| enq_func := delete_build; enq_cid := cid |}])%list in
        let w := snd (container_delete cid w) in
        let w := snd (messages_info "Container successfully deleted." w) in
        match container_collection container w with
        | (inl e, w) => (inl e, {| world := w; default_queue := queue |})
        | (inr collection, w) =>
          (inr (redirect (get_absolute_url collection) None),
           {| world := w; default_queue := queue |})
        end
    end
  end.

(** The loop of [connect_github]: keep the contenders whose [full_name] is
    not among the names; a repository without that key ends the loop with
    a [KeyError]. *)
Fixpoint repos_not_taken (names : list string) (contenders : list Repo)
  : exn + list Repo :=
  match contenders with
  | [] => inr []
  | repo :: contenders' =>
    match repo !! "full_name" with
    | None => inl (KeyError "full_name")
    | Some full_name =>
      match repos_not_taken names contenders' with
      | inl e => inl e
      | inr repos =>
        if bool_decide (full_name ∈ names) then inr repos
        else inr (repo :: repos)
      end
    end
  end.

(** [connect_github], under [@login_required]. *)
Definition connect_github (request : Request) : M (PageResult Obj) :=
  match user request with
  | None => ret (respond redirect_to_login)
  | Some u =>
    let contenders := list_repos u in
    let! w := get_world in
    let collections := collection_names_owned_by u w in
    match repos_not_taken collections contenders with
    | inl e => raise e
    | inr repos =>
      ret (render "google_build/add_collection.html"
                  [("repos", ctx_repos repos)])
    end
  end.

End GoogleBuildViews.

End MoreActions.

Arguments Site : clear implicits.

(** *** shub/apps/main/views/containers.py, the page views *)

Module MainViews.

Section Views.

Context {Params Obj : Type}.

Local Abbreviation World := (World Params).
Local Abbreviation M := (M Params).

(** [collection.owner] and [collection.get_absolute_url] of the model,
    [container_tree] of [singularity.views.trees] ([None] when it raises),
    [get_container_log] and the label query. *)
Variable collection_owner : Collection.t -> User.t.
Variable get_absolute_url : Collection.t -> string.
Variable container_tree : Container.t -> option (gmap string Obj).
Variable get_container_log : Container.t -> Obj.
Variable labels_of : Z -> Obj.

(** [request.user != collection.owner] *)
Definition not_owner (request : Request) (collection : Collection.t) : bool :=
  negb (bool_decide (User.id <$> user request =
                     Some (User.id (collection_owner collection)))).

(** [container.collection.private == True and
     request.user != container.collection.owner] *)
Definition private_to_others (request : Request)
    (collection : Collection.t) : bool :=
  Collection.private collection && not_owner request collection.

Definition view_container (request : Request) (cid : Z)
  : M (PageResult Obj) :=
  let! container := get_container cid in
  let! collection := container_collection container in
  if private_to_others request collection then
    let! _ := messages_info "This container is private." in
    ret (respond (redirect "collections" None))
  else
    let failed : M (PageResult Obj) :=
      let! _ := messages_info
        "We had an issue retrieving files for this container! Try another build?" in
      ret (respond (redirect "collection_details"
                             (Some (Container.collection container)))) in
    match container_tree container with
    | None => failed
    | Some tree =>
      match tree !! "graph", tree !! "files" with
      | Some graph, Some files =>
        ret (render "singularity/container_tree.html"
                    [("container", ctx_container cid container);
                     ("graph", ctx_object graph);
                     ("files", ctx_object files)])
      | _, _ => failed
      end
    end.

Definition container_details (request : Request) (cid : Z)
  : M (PageResult Obj) :=
  let! container := get_container cid in
  let! collection := container_collection container in
  if private_to_others request collection then
    let! _ := messages_info "This container is private." in
    ret (respond (redirect "collections" None))
  else
    let labels := labels_of cid in
    ret (render "containers/container_details.html"
                [("container", ctx_container cid container);
                 ("labels", ctx_object labels)]).

Definition delete_container (request : Request) (cid : Z)
  : M HttpResponse :=
  let! container := get_container cid in
  let! collection := container_collection container in
  if not_owner request collection then
    let! _ := messages_info "This action is not permitted." in
    ret (redirect "collections" None)
  else
    let! _ := messages_info "Container successfully deleted." in
    ret (redirect (get_absolute_url collection) None).

Definition container_log (request : Request) (cid : Z)
  : M (PageResult Obj) :=
  let! container := get_container cid in
  let! collection := container_collection container in
  if private_to_others request collection then
    let! _ := messages_info "This container is private." in
    ret (respond (redirect "collections" None))
  else
    let log := get_container_log container in
    ret (render "containers/container_log.html"
                [("container", ctx_container cid container);
                 ("log", ctx_object log)]).

Definition container_tags (request : Request) (cid : Z)
  : M (PageResult Obj) :=
  let! container := get_container cid in
  let! collection := container_collection container in
  if private_to_others request collection then
    let! _ := messages_info "This container is private." in
    ret (respond (redirect "collections" None))
  else
    ret (render "containers/container_tags.html"
                [("container", ctx_container cid container)]).

End Views.

End MainViews.

(** * A small registry to run the views on *)

Module Samples.

Definition alice : User.t := {| User.id := 7; User.username := "alice" |}.
Definition bob : User.t := {| User.id := 8; User.username := "bob" |}.

Definition foo : Collection.t :=
  {| Collection.name := "foo"; Collection.owners := [7];
     Collection.private := false |}.

(** "bar:latest" of collection 1, in each state of the freeze toggle. *)
Definition bar (frozen : bool) (version : option string) : Container.t :=
  {| Container.collection := 1; Container.name := "bar";
     Container.tag := "latest"; Container.frozen := frozen;
     Container.version := version |}.

Definition registry (containers : gmap Z Container.t) : World unit :=
  {| collections := {[ 1 := foo ]};
     containers := containers;
     recipes := [];
     scheduled := [];
     flash := [] |}.

Definition world_empty : World unit := registry ∅.
Definition world_new : World unit := registry {[ 5 := bar false None ]}.
Definition world_frozen : World unit :=
  registry {[ 5 := bar true (Some "2017-08-06T19:28:43.294175") ]}.

Definition get_request_user (auth : string) : option User.t :=
  if decide (auth = "token-alice") then Some alice
  else if decide (auth = "token-bob") then Some bob
  else None.

Definition validate_request (auth payload kind timestamp : string) : bool :=
  bool_decide (auth = "token-alice") && bool_decide (kind = "build") &&
  String.prefix "build|" payload && re_search timestamp payload.

Definition has_create_permission (u : User.t) : bool := true.

Definition has_permission (auth : string) (c : Collection.t)
    (pull_permission : bool) : bool :=
  match get_request_user auth with
  | Some u => bool_decide (User.id u ∈ Collection.owners c)
  | None => false
  end.

Definition get_short_uri (c : Container.t) : string :=
  "foo/" +:+ Container.name c +:+ ":" +:+ Container.tag c.

Definition has_edit_permission (c : Container.t) (request : Request) : bool :=
  match user request with
  | Some u => bool_decide (User.id u = 7)
  | None => false
  end.

Definition load_params (body : string) : exn + unit :=
  if decide (body = "") then inl DecodeError else inr tt.

Definition receive_github_hook (request : Request)
  : M unit HttpResponse :=
  let! _ := messages_info "hook" in
  ret (JsonResponseMessage "Received" (Some 200) None).

Definition push_request (auth collection : string) : Request :=
  {| method := "POST"; user := None;
     META := {[ "HTTP_AUTHORIZATION" := auth ]};
     data := <[ "collection" := collection ]>
             (<[ "name" := "bar" ]> {[ "datafile" := "Singularity" ]});
     body := "" |}.

Definition push_bar : Request := push_request "token-alice" "foo".
Definition push_nowhere : Request := push_request "token-alice" "baz".

Definition page_request (u : User.t) : Request :=
  {| method := "GET"; user := Some u; META := ∅; data := ∅; body := "" |}.

Definition hook_request (method user_agent : string) : Request :=
  {| method := method; user := None;
     META := {[ "HTTP_USER_AGENT" := user_agent ]};
     data := ∅; body := "" |}.

Definition notification (content_length : string) : Request :=
  {| method := "POST"; user := None;
     META := {[ "CONTENT_LENGTH" := content_length ]};
     data := ∅;
     body := "{'build_id': 'b4f2', 'status': 'SUCCESS'}" |}.

(** A validator that accepts every token for a build payload. *)
Definition validate_signed (auth payload kind timestamp : string) : bool :=
  bool_decide (kind = "build") && String.prefix "build|" payload.

Definition push_as_bob : Request := push_request "token-bob" "foo".

Definition get_absolute_url (c : Collection.t) : string :=
  "/collections/" +:+ Collection.name c.

(** Carol owns the private collection 2 and its container 8. *)
Definition carol : User.t := {| User.id := 9; User.username := "carol" |}.

Definition secrets : Collection.t :=
  {| Collection.name := "secrets"; Collection.owners := [9];
     Collection.private := true |}.

Definition collection_owner (c : Collection.t) : User.t :=
  if decide (Collection.name c = "secrets") then carol else alice.

Definition vault : Container.t :=
  {| Container.collection := 2; Container.name := "vault";
     Container.tag := "latest"; Container.frozen := false;
     Container.version := None |}.

Definition world_private : World unit :=
  {| collections := <[ 2 := secrets ]> {[ 1 := foo ]};
     containers := <[ 8 := vault ]> {[ 5 := bar false None ]};
     recipes := [];
     scheduled := [];
     flash := [] |}.

Definition container_tree (c : Container.t) : option (gmap string string) :=
  if decide (Container.name c = "vault")
  then Some (<[ "graph" := "nodes" ]> {[ "files" := "/bin /etc" ]})
  else None.

Definition get_container_log (c : Container.t) : string :=
  "log of " +:+ Container.name c.

Definition labels_of (cid : Z) : string := "labels".

Definition repo (full_name : string) : Repo :=
  <[ "full_name" := full_name ]> {[ "clone_url" := "https://github.com/" ]}.

Definition list_repos (u : User.t) : list Repo :=
  [repo "foo"; repo "alice/tools"; repo "alice/site"].

End Samples.

(** * Facts about the building blocks *)

Section QueryFacts.

Context {A : Type}.
Implicit Types (lookup : A -> bool) (table : gmap Z A).

Lemma filter_nil_all_false (f : Z * A -> bool) (l : list (Z * A)) :
  (forall x, In x l -> f x = false) -> List.filter f l = [].
Proof.
  induction l as [|x l IH]; intros H; simpl; [reflexivity|].
  rewrite (H x (or_introl eq_refl)). apply IH.
  intros y Hy. apply H. right. exact Hy.
Qed.

Lemma in_map_to_list table pk row :
  In (pk, row) (map_to_list table) <-> table !! pk = Some row.
Proof. rewrite <- list_elem_of_In. apply elem_of_map_to_list. Qed.

(** No row satisfies the lookup: [DoesNotExist]. *)
Lemma objects_get_none lookup table :
  (forall pk row, table !! pk = Some row -> lookup row = false) ->
  objects_get lookup table = NoneFound.
Proof.
  intros H. unfold objects_get.
  rewrite filter_nil_all_false; [reflexivity|].
  intros [pk row] Hin. simpl. apply (H pk). apply in_map_to_list. exact Hin.
Qed.

(** [DoesNotExist] means that no row satisfies the lookup. *)
Lemma objects_get_none_inv lookup table :
  objects_get lookup table = NoneFound ->
  forall pk row, table !! pk = Some row -> lookup row = false.
Proof.
  unfold objects_get. intros H pk row Hrow.
  destruct (lookup row) eqn:Hl; [|reflexivity]. exfalso.
  assert (Hin : In (pk, row)
                   (List.filter (fun kv => lookup (snd kv))
                                (map_to_list table))).
  { apply filter_In. split; [apply in_map_to_list; exact Hrow | exact Hl]. }
  destruct (List.filter _ _) as [|[k r] [|y l]]; try discriminate.
  destruct Hin.
Qed.

(** What [get] returns is a row of the table that satisfies the lookup. *)
Lemma objects_get_found lookup table pk row :
  objects_get lookup table = Found pk row ->
  table !! pk = Some row /\ lookup row = true.
Proof.
  unfold objects_get. intros H.
  assert (Hin : In (pk, row)
                   (List.filter (fun kv => lookup (snd kv)) (map_to_list table))).
  { destruct (List.filter _ _) as [|[k r] [|y l]]; try discriminate.
    inversion H; subst. left. reflexivity. }
  apply filter_In in Hin. destruct Hin as [Hin Hl].
  split; [apply in_map_to_list; exact Hin | exact Hl].
Qed.

(** Exactly one row satisfies the lookup: [get] returns it. *)
Lemma objects_get_unique lookup table pk row :
  table !! pk = Some row -> lookup row = true ->
  (forall pk' row', table !! pk' = Some row' -> lookup row' = true ->
                    pk' = pk) ->
  objects_get lookup table = Found pk row.
Proof.
  intros Hrow Hl Huniq. unfold objects_get.
  set (f := fun kv : Z * A => lookup (snd kv)).
  assert (Hall : forall x, In x (List.filter f (map_to_list table)) ->
                           x = (pk, row)).
  { intros [k r] Hin. apply filter_In in Hin. destruct Hin as [Hin Hf].
    apply in_map_to_list in Hin. simpl in Hf.
    assert (k = pk) by (eapply Huniq; eauto). subst k.
    congruence. }
  assert (Hmem : In (pk, row) (List.filter f (map_to_list table))).
  { apply filter_In. split; [apply in_map_to_list; exact Hrow | exact Hl]. }
  assert (Hnd : List.NoDup (List.filter f (map_to_list table))).
  { apply List.NoDup_filter. apply NoDup_ListNoDup.
    apply NoDup_map_to_list. }
  destruct (List.filter f (map_to_list table)) as [|x [|y l]].
  - destruct Hmem.
  - rewrite (Hall x (or_introl eq_refl)). reflexivity.
  - exfalso.
    assert (x = (pk, row)) by (apply Hall; left; reflexivity).
    assert (y = (pk, row)) by (apply Hall; right; left; reflexivity).
    subst x y. inversion Hnd as [|? ? Hnotin _]. apply Hnotin. left.
    reflexivity.
Qed.

End QueryFacts.

Section StringFacts.

Lemma append_String (a : Ascii.ascii) (s t : string) :
  String a s +:+ t = String a (s +:+ t).
Proof. reflexivity. Qed.

Lemma append_empty (t : string) : "" +:+ t = t.
Proof. reflexivity. Qed.

Lemma prefix_spec (p s : string) :
  String.prefix p s = true <-> exists post, s = p +:+ post.
Proof.
  revert s. induction p as [|a p IH]; intros s.
  - split; [intros _; exists s; reflexivity | intros _; destruct s; reflexivity].
  - destruct s as [|b s]; simpl.
    + split; [discriminate | intros [post H]; discriminate].
    + destruct (Ascii.ascii_dec a b) as [->|Hne].
      * rewrite IH. split; intros [post H]; exists post.
        -- rewrite append_String, H. reflexivity.
        -- rewrite append_String in H. congruence.
      * split; [discriminate|].
        intros [post H]. rewrite append_String in H. congruence.
Qed.

(** [re_search] finds the pattern exactly when it occurs in the string. *)
Lemma re_search_spec (p s : string) :
  re_search p s = true <-> exists pre post, s = pre +:+ p +:+ post.
Proof.
  induction s as [|c s IH].
  - change (re_search p "") with (String.prefix p "" || false).
    rewrite orb_false_r, prefix_spec. split.
    + intros [post H]. exists "", post. exact H.
    + intros [pre [post H]]. destruct pre as [|c pre].
      * exists post. exact H.
      * rewrite append_String in H. discriminate.
  - change (re_search p (String c s))
      with (String.prefix p (String c s) || re_search p s).
    rewrite orb_true_iff, prefix_spec, IH. split.
    + intros [[post H]|[pre [post H]]].
      * exists "", post. exact H.
      * exists (String c pre), post. rewrite append_String, H. reflexivity.
    + intros [pre [post H]]. destruct pre as [|c' pre].
      * left. exists post. exact H.
      * right. exists pre, post. rewrite append_String in H. congruence.
Qed.

Lemma length_append (a b : string) :
  String.length (a +:+ b) = (String.length a + String.length b)%nat.
Proof.
  induction a as [|c a IH]; [reflexivity|].
  rewrite append_String. simpl. rewrite IH. reflexivity.
Qed.

End StringFacts.

(** * The freeze toggle *)

Section FreezeFacts.

Context {Params : Type}.
Variable has_edit_permission : Container.t -> Request -> bool.

Local Abbreviation World := (World Params).
Local Abbreviation toggle := (change_freeze_status (Params:=Params) has_edit_permission).

Lemma toggle_anonymous now request cid (w : World) :
  user request = None ->
  toggle now request cid w = (inr redirect_to_login, w).
Proof.
  intros Hu. unfold change_freeze_status, login_required. rewrite Hu.
  reflexivity.
Qed.

Lemma toggle_missing now request cid (w : World) :
  containers w !! cid = None ->
  snd (toggle now request cid w) = w.
Proof.
  intros Hc. unfold change_freeze_status, login_required.
  destruct (user request); [|reflexivity].
  unfold change_freeze_status_view, get_container, bind, get_world. simpl.
  rewrite Hc. reflexivity.
Qed.

Lemma toggle_denied now request cid (w : World) u c :
  user request = Some u ->
  containers w !! cid = Some c ->
  has_edit_permission c request = false ->
  toggle now request cid w =
  (inr (redirect "container_details" (Some cid)),
   {| collections := collections w;
      containers := containers w;
      recipes := recipes w;
      scheduled := scheduled w;
      flash := flash w ++
               ["You do not have permissions to perform this operation."] |}).
Proof.
  intros Hu Hc Hp. unfold change_freeze_status, login_required. rewrite Hu.
  unfold change_freeze_status_view, get_container, bind, get_world. simpl.
  rewrite Hc. unfold ret at 1. rewrite Hp. reflexivity.
Qed.

Lemma toggle_permitted now request cid (w : World) u c :
  user request = Some u ->
  containers w !! cid = Some c ->
  has_edit_permission c request = true ->
  toggle now request cid w =
  (inr (redirect "container_details" (Some cid)),
   {| collections := collections w;
      containers := <[cid := toggled now c]> (containers w);
      recipes := recipes w;
      scheduled := scheduled w;
      flash := flash w ++
               ["Container frozen set to " +:+
                py_bool_str (negb (Container.frozen c)) +:+ "."] |}).
Proof.
  intros Hu Hc Hp. unfold change_freeze_status, login_required. rewrite Hu.
  unfold change_freeze_status_view, get_container, bind, get_world. simpl.
  rewrite Hc. unfold ret at 1. rewrite Hp.
  unfold toggled. destruct c as [col nm tg fr [v|]]; destruct fr; reflexivity.
Qed.

(** One request, whatever its outcome, keeps the row and a version that is
    already set. *)
Lemma toggle_keeps_version now request cid (w : World) c :
  containers w !! cid = Some c ->
  exists c', containers (snd (toggle now request cid w)) !! cid = Some c' /\
             forall v, Container.version c = Some v ->
                       Container.version c' = Some v.
Proof.
  intros Hc. destruct (user request) as [u|] eqn:Hu.
  - destruct (has_edit_permission c request) eqn:Hp.
    + rewrite (toggle_permitted now request cid w u c Hu Hc Hp). simpl.
      exists (toggled now c). split; [apply lookup_insert_eq|].
      intros v Hv. unfold toggled. simpl. rewrite Hv. reflexivity.
    + rewrite (toggle_denied now request cid w u c Hu Hc Hp). simpl.
      exists c. split; [exact Hc | auto].
  - rewrite (toggle_anonymous now request cid w Hu). simpl.
    exists c. split; [exact Hc | auto].
Qed.

Lemma freeze_requests_keep_version cid ops : forall (w : World) c v,
  containers w !! cid = Some c ->
  Container.version c = Some v ->
  exists c', containers (freeze_requests has_edit_permission cid ops w) !! cid
             = Some c' /\
             Container.version c' = Some v.
Proof.
  induction ops as [|[now request] ops IH]; intros w c v Hc Hv; simpl.
  - exists c. split; assumption.
  - destruct (toggle_keeps_version now request cid w c Hc) as [c1 [Hc1 Hv1]].
    apply (IH _ c1 v Hc1). apply Hv1. exact Hv.
Qed.

(** C2: a version that is set survives every sequence of freeze and
    unfreeze requests unchanged; the first permitted freeze of an
    unversioned, unfrozen container sets the version to the clock reading of
    that request, and no later request reassigns or clears it. *)
Theorem version_set_once cid (w : World) c ops :
  containers w !! cid = Some c ->
  (forall v, Container.version c = Some v ->
     exists c', containers (freeze_requests has_edit_permission cid ops w) !! cid
                = Some c' /\
                Container.version c' = Some v) /\
  (forall now request u,
     Container.version c = None -> Container.frozen c = false ->
     user request = Some u -> has_edit_permission c request = true ->
     let w1 := snd (toggle now request cid w) in
     (exists c1, containers w1 !! cid = Some c1 /\
                 Container.version c1 = Some now /\
                 Container.frozen c1 = true) /\
     (exists c', containers (freeze_requests has_edit_permission cid ops w1)
                   !! cid = Some c' /\
                 Container.version c' = Some now)).
Proof.
  intros Hc. split.
  - intros v Hv. eapply freeze_requests_keep_version; eauto.
  - intros now request u Hv Hf Hu Hp w1.
    assert (Hw1 : containers w1 !! cid = Some (toggled now c)).
    { subst w1. rewrite (toggle_permitted now request cid w u c Hu Hc Hp).
      simpl. apply lookup_insert_eq. }
    assert (Hv1 : Container.version (toggled now c) = Some now).
    { unfold toggled. simpl. rewrite Hv, Hf. reflexivity. }
    split.
    + exists (toggled now c). repeat split; [exact Hw1 | exact Hv1 |].
      unfold toggled. simpl. rewrite Hf. reflexivity.
    + eapply freeze_requests_keep_version; eauto.
Qed.


(** C7: a toggle request by a principal without edit permission on the
    container leaves the store as it is, and the caller is told so by a
    flash message on the way back to the container's page; the row of the
    container changes only when the request is authenticated and edit
    permission holds. *)
Theorem toggle_guard now request cid (w : World) c :
  containers w !! cid = Some c ->
  (has_edit_permission c request = false ->
   let (response, w') := toggle now request cid w in
   containers w' = containers w /\
   collections w' = collections w /\
   recipes w' = recipes w /\
   scheduled w' = scheduled w /\
   (forall u, user request = Some u ->
      response = inr (redirect "container_details" (Some cid)) /\
      flash w' =
        (flash w ++
         ["You do not have permissions to perform this operation."])%list)) /\
  (containers (snd (toggle now request cid w)) !! cid <> Some c ->
   has_edit_permission c request = true /\ is_Some (user request)).
Proof.
  intros Hc. split.
  - intros Hp. destruct (user request) as [u|] eqn:Hu.
    + rewrite (toggle_denied now request cid w u c Hu Hc Hp).
      repeat split.
    + rewrite (toggle_anonymous now request cid w Hu).
      repeat split; discriminate.
  - intros Hchg. destruct (user request) as [u|] eqn:Hu.
    + destruct (has_edit_permission c request) eqn:Hp; [split; eauto|].
      exfalso. apply Hchg.
      rewrite (toggle_denied now request cid w u c Hu Hc Hp). exact Hc.
    + exfalso. apply Hchg.
      rewrite (toggle_anonymous now request cid w Hu). exact Hc.
Qed.

(** C10: a permitted toggle negates [frozen], sets [version] only when it
    was null and [frozen] was false, and changes nothing else: not the other
    fields of the row, not the other rows, not the other tables. *)
Theorem toggle_frame now request u cid (w : World) c :
  user request = Some u ->
  containers w !! cid = Some c ->
  has_edit_permission c request = true ->
  let w' := snd (toggle now request cid w) in
  exists c',
    containers w' !! cid = Some c' /\
    Container.frozen c' = negb (Container.frozen c) /\
    Container.version c' =
      (if bool_decide (Container.version c = None) &&
          negb (Container.frozen c)
       then Some now else Container.version c) /\
    Container.collection c' = Container.collection c /\
    Container.name c' = Container.name c /\
    Container.tag c' = Container.tag c /\
    (forall cid', cid' <> cid -> containers w' !! cid' = containers w !! cid') /\
    collections w' = collections w /\
    recipes w' = recipes w /\
    scheduled w' = scheduled w.
Proof.
  intros Hu Hc Hp w'. subst w'.
  rewrite (toggle_permitted now request cid w u c Hu Hc Hp). simpl.
  exists (toggled now c). split; [apply lookup_insert_eq|].
  unfold toggled. simpl. repeat split.
  - destruct (Container.version c), (Container.frozen c); reflexivity.
  - intros cid' Hne. apply lookup_insert_ne. congruence.
Qed.

End FreezeFacts.

(** Alice freezes "bar:latest" at t0; whatever alice and bob ask for
    afterwards, the version stays t0. *)
Lemma version_set_once_witness :
  let ops := [("t1", Samples.page_request Samples.alice);
              ("t2", Samples.page_request Samples.bob);
              ("t3", Samples.page_request Samples.alice)] in
  let w1 := snd (change_freeze_status Samples.has_edit_permission "t0"
                   (Samples.page_request Samples.alice) 5 Samples.world_new) in
  exists c', containers (freeze_requests Samples.has_edit_permission 5 ops w1)
               !! 5 = Some c' /\
             Container.version c' = Some "t0".
Proof.
  intros ops w1.
  assert (Hrow : containers Samples.world_new !! 5 =
                 Some (Samples.bar false None)) by reflexivity.
  destruct (version_set_once Samples.has_edit_permission 5 Samples.world_new
              (Samples.bar false None) ops Hrow) as [_ Hfirst].
  destruct (Hfirst "t0" (Samples.page_request Samples.alice) Samples.alice
              eq_refl eq_refl eq_refl eq_refl) as [_ Hlater].
  exact Hlater.
Defined.



(** Bob, who may not edit, asks to freeze "bar:latest". *)
Lemma toggle_guard_witness :
  let (response, w') :=
    change_freeze_status Samples.has_edit_permission "t1"
                         (Samples.page_request Samples.bob) 5
                         Samples.world_new in
  response = inr (redirect "container_details" (Some 5)) /\
  containers w' = containers Samples.world_new /\
  flash w' = ["You do not have permissions to perform this operation."].
Proof.
  assert (Hrow : containers Samples.world_new !! 5 =
                 Some (Samples.bar false None)) by reflexivity.
  pose proof (proj1 (toggle_guard Samples.has_edit_permission "t1"
                       (Samples.page_request Samples.bob) 5
                       Samples.world_new (Samples.bar false None) Hrow)
                    eq_refl) as H.
  destruct (change_freeze_status _ _ _ _ _) as [response w'].
  destruct H as (Hc & _ & _ & _ & Hm).
  destruct (Hm Samples.bob eq_refl) as [Hr Hf].
  repeat split; assumption.
Defined.

(** Alice freezes "bar:latest" next to another container. *)
Lemma toggle_frame_witness :
  let w := Samples.registry
             (<[ 6 := Samples.bar true None ]>
              {[ 5 := Samples.bar false None ]}) in
  let w' := snd (change_freeze_status Samples.has_edit_permission "t1"
                   (Samples.page_request Samples.alice) 5 w) in
  containers w' !! 6 = Some (Samples.bar true None) /\
  exists c', containers w' !! 5 = Some c' /\
             Container.frozen c' = true /\
             Container.version c' = Some "t1" /\
             Container.name c' = "bar".
Proof.
  intros w w'.
  assert (Hrow : containers w !! 5 = Some (Samples.bar false None))
    by reflexivity.
  destruct (toggle_frame Samples.has_edit_permission "t1"
              (Samples.page_request Samples.alice) Samples.alice 5 w
              (Samples.bar false None) eq_refl Hrow eq_refl)
    as (c' & Hc' & Hf & Hv & _ & Hn & _ & Hothers & _).
  split.
  - transitivity (containers w !! 6); [apply Hothers; discriminate|].
    reflexivity.
  - exists c'. repeat split; assumption.
Defined.

(** * Push admission *)

Section PushFacts.

Context {Params : Type}.
Variable get_request_user : string -> option User.t.
Variable validate_request : string -> string -> string -> string -> bool.
Variable has_create_permission : User.t -> bool.
Variable has_permission : string -> Collection.t -> bool -> bool.
Variable get_short_uri : Container.t -> string.

Local Abbreviation World := (World Params).
Local Abbreviation push :=
  (perform_create (Params:=Params) get_request_user validate_request
                  has_create_permission has_permission get_short_uri).
Local Abbreviation push_all :=
  (pushes (Params:=Params) get_request_user validate_request
          has_create_permission has_permission get_short_uri).
Local Abbreviation authenticated :=
  (authenticated get_request_user validate_request has_create_permission).
Local Abbreviation passes_checks :=
  (passes_checks (Params:=Params) get_request_user validate_request
                 has_create_permission has_permission).

Lemma push_after_authentication timestamp request (w : World) auth owner :
  authenticated timestamp request auth owner ->
  push timestamp request w =
  match objects_get (collection_lookup (data request !! "collection"))
                    (collections w) with
  | NoneFound => (inl (PermissionDenied "Not Found"), w)
  | ManyFound => (inl (MultipleObjectsReturned "Collection"), w)
  | Found pk coll =>
    if negb (bool_decide (User.id owner ∈ Collection.owners coll)) then
      (inl (PermissionDenied "Unauthorized"), w)
    else if negb (has_permission auth coll false) then
      (inl (PermissionDenied "Unauthorized"), w)
    else
      match target request pk w with
      | ManyFound => (inl (MultipleObjectsReturned "Container"), w)
      | NoneFound => serializer_save (recipe_of_request request owner) w
      | Found _ c =>
        if negb (Container.frozen c) then
          serializer_save (recipe_of_request request owner) w
        else
          (inl (PermissionDenied
                  (get_short_uri c +:+ " is frozen, push not allowed.")), w)
      end
  end.
Proof.
  intros (Hauth & Huser & Hvalid & Hcreate).
  unfold perform_create. rewrite Hauth, Huser, Hvalid, Hcreate. simpl.
  unfold bind, get_world, target.
  destruct (objects_get (collection_lookup _) _) as [pk coll| |];
    try reflexivity.
  destruct (negb (bool_decide _)); [reflexivity|].
  destruct (negb (has_permission _ _ _)); [reflexivity|].
  destruct (objects_get (container_lookup _ _ _) _) as [k c| |];
    try reflexivity.
  destruct (negb (Container.frozen c)); reflexivity.
Qed.

Lemma push_after_checks timestamp request (w : World) auth owner pk coll :
  passes_checks timestamp request w auth owner pk coll ->
  push timestamp request w =
  match target request pk w with
  | ManyFound => (inl (MultipleObjectsReturned "Container"), w)
  | NoneFound => serializer_save (recipe_of_request request owner) w
  | Found _ c =>
    if negb (Container.frozen c) then
      serializer_save (recipe_of_request request owner) w
    else
      (inl (PermissionDenied
              (get_short_uri c +:+ " is frozen, push not allowed.")), w)
  end.
Proof.
  intros (Ha & Hcoll & Hown & Hperm).
  rewrite (push_after_authentication _ _ _ _ _ Ha), Hcoll.
  rewrite (bool_decide_eq_true_2 _ Hown), Hperm. reflexivity.
Qed.

(** C1: a push that passes every check and finds its target container
    frozen fails with PermissionDenied (HTTP 403 Forbidden) and the detail
    "<short-uri> is frozen, push not allowed."; the store is left as it was,
    so no RecipeFile is written, and every further such push to the frozen
    container is rejected in the same way. *)
Theorem push_frozen_forbidden timestamp request (w : World)
    auth owner pk coll k c :
  passes_checks timestamp request w auth owner pk coll ->
  target request pk w = Found k c ->
  Container.frozen c = true ->
  push timestamp request w =
    (inl (PermissionDenied
            (get_short_uri c +:+ " is frozen, push not allowed.")), w) /\
  forall reqs : list (string * Request),
    Forall (fun r =>
              exists auth' owner' pk' coll',
                passes_checks (fst r) (snd r) w auth' owner' pk' coll' /\
                target (snd r) pk' w = Found k c) reqs ->
    push_all reqs w =
      (List.map (fun _ =>
                   inl (PermissionDenied
                          (get_short_uri c +:+
                           " is frozen, push not allowed."))) reqs, w).
Proof.
  intros Hchecks Htarget Hfrozen.
  assert (Hone : forall ts rq a o p cl,
            passes_checks ts rq w a o p cl -> target rq p w = Found k c ->
            push ts rq w =
            (inl (PermissionDenied
                    (get_short_uri c +:+ " is frozen, push not allowed.")), w)).
  { intros ts rq a o p cl Hc Ht.
    rewrite (push_after_checks _ _ _ _ _ _ _ Hc), Ht, Hfrozen. reflexivity. }
  split; [eapply Hone; eauto|].
  induction reqs as [|[ts rq] reqs IH]; intros Hall; [reflexivity|].
  inversion Hall as [|? ? (a & o & p & cl & Hc & Ht) Hrest]; subst.
  simpl in Hc, Ht. simpl.
  rewrite (Hone _ _ _ _ _ _ Hc Ht), (IH Hrest). reflexivity.
Qed.

(** C3 (as amended): a push that passes authentication, signature
    validation and the create-permission check, for a collection name that
    no Collection row carries, fails with PermissionDenied and the detail
    "Not Found", and the store is left as it was.  The exception is of the
    class, answered with HTTP 403, that the "Unauthorized" and the frozen
    rejections are of: it differs from them in its detail only, and the
    view raises that detail in no other situation than a missing
    collection. *)
Theorem push_collection_not_found timestamp request (w : World) auth owner :
  authenticated timestamp request auth owner ->
  (forall pk coll, collections w !! pk = Some coll ->
                   Some (Collection.name coll) <> data request !! "collection") ->
  (exists e,
     push timestamp request w = (inl e, w) /\
     e = PermissionDenied "Not Found" /\
     status_code e = 403 /\
     status_code e = status_code (PermissionDenied "Unauthorized") /\
     forall c, status_code e =
               status_code (PermissionDenied
                              (get_short_uri c +:+
                               " is frozen, push not allowed."))) /\
  (forall timestamp' request' (w1 w2 : World),
     push timestamp' request' w1 = (inl (PermissionDenied "Not Found"), w2) ->
     w2 = w1 /\
     is_Some (META request' !! "HTTP_AUTHORIZATION") /\
     forall pk coll, collections w1 !! pk = Some coll ->
                     Some (Collection.name coll) <>
                     data request' !! "collection").
Proof.
  intros Ha Hnone. split.
  - exists (PermissionDenied "Not Found"). split; [|repeat split].
    rewrite (push_after_authentication _ _ _ _ _ Ha).
    rewrite objects_get_none; [reflexivity|].
    intros pk coll Hrow. unfold collection_lookup.
    apply bool_decide_eq_false_2. apply (Hnone pk). exact Hrow.
  - clear. intros ts rq w1 w2 H. unfold perform_create in H.
    destruct (META rq !! "HTTP_AUTHORIZATION") as [a|]; [|discriminate H].
    destruct (negb (validate_request a _ "build" ts)); [discriminate H|].
    destruct (get_request_user a) as [o|]; [|discriminate H].
    destruct (negb (has_create_permission o)); [discriminate H|].
    unfold bind, get_world in H.
    destruct (objects_get (collection_lookup _) (collections w1))
      as [pk coll| |] eqn:Hcoll; [| |discriminate H].
    + exfalso.
      destruct (negb (bool_decide _)); [discriminate H|].
      destruct (negb (has_permission _ _ _)); [discriminate H|].
      destruct (objects_get (container_lookup _ _ _) _) as [k c| |];
        [|discriminate H|discriminate H].
      destruct (negb (Container.frozen c)); [discriminate H|].
      injection H as Hmsg _.
      apply (f_equal String.length) in Hmsg. rewrite length_append in Hmsg.
      simpl in Hmsg. lia.
    + injection H as <-. split; [reflexivity|]. split; [eauto|].
      intros pk coll Hrow Hname.
      pose proof (objects_get_none_inv _ _ Hcoll pk coll Hrow) as Hl.
      unfold collection_lookup in Hl.
      apply bool_decide_eq_false in Hl. exact (Hl Hname).
Qed.


(** C5: a push that passes every check and finds either no container for
    its target or a container that is not frozen succeeds, and the store
    gains exactly one RecipeFile: the request's datafile, collection, tag
    ("latest" when the request has none) and name, owned by the resolved
    principal. *)
Theorem push_accepted timestamp request (w : World) auth owner pk coll :
  passes_checks timestamp request w auth owner pk coll ->
  (target request pk w = NoneFound \/
   exists k c, target request pk w = Found k c /\
               Container.frozen c = false) ->
  push timestamp request w =
    (inr tt,
     {| collections := collections w;
        containers := containers w;
        recipes :=
          recipes w ++
          [{| RecipeFile.datafile := data request !! "datafile";
              RecipeFile.collection := data request !! "collection";
              RecipeFile.tag :=
                match data request !! "tag" with
                | Some t => t
                | None => "latest"
                end;
              RecipeFile.name := data request !! "name";
              RecipeFile.owner_id := User.id owner |}];
        scheduled := scheduled w;
        flash := flash w |}).
Proof.
  intros Hchecks Htarget.
  rewrite (push_after_checks _ _ _ _ _ _ _ Hchecks).
  destruct Htarget as [-> | (k & c & -> & Hf)]; [|rewrite Hf]; reflexivity.
Qed.

End PushFacts.

(** With the sample helpers, alice's push of "bar" to "foo" passes every
    check before the container lookup. *)
Lemma alice_passes_checks timestamp (containers : gmap Z Container.t) :
  passes_checks Samples.get_request_user Samples.validate_request
                Samples.has_create_permission Samples.has_permission
                ("2019" +:+ timestamp) Samples.push_bar
                (Samples.registry containers)
                "token-alice" Samples.alice 1 Samples.foo.
Proof.
  repeat split.
  - unfold Samples.validate_request. rewrite !andb_true_iff.
    repeat split. apply re_search_spec.
    exists "build|foo|", "|bar|latest|". reflexivity.
  - vm_compute. constructor.
Qed.

(** Alice pushes "bar:latest" to "foo" while it is frozen, once and then
    three times in a row. *)
Lemma push_frozen_forbidden_witness :
  let rejected : exn + unit :=
    inl (PermissionDenied "foo/bar:latest is frozen, push not allowed.") in
  perform_create Samples.get_request_user Samples.validate_request
                 Samples.has_create_permission Samples.has_permission
                 Samples.get_short_uri "20190101T000000" Samples.push_bar
                 Samples.world_frozen = (rejected, Samples.world_frozen) /\
  pushes Samples.get_request_user Samples.validate_request
         Samples.has_create_permission Samples.has_permission
         Samples.get_short_uri
         [("20190101T000001", Samples.push_bar);
          ("20190101T000002", Samples.push_bar);
          ("20190101T000003", Samples.push_bar)]
         Samples.world_frozen =
  ([rejected; rejected; rejected], Samples.world_frozen).
Proof.
  intros rejected.
  destruct (push_frozen_forbidden
              Samples.get_request_user Samples.validate_request
              Samples.has_create_permission Samples.has_permission
              Samples.get_short_uri "20190101T000000" Samples.push_bar
              Samples.world_frozen "token-alice" Samples.alice 1 Samples.foo
              5 (Samples.bar true (Some "2017-08-06T19:28:43.294175"))
              (alice_passes_checks "0101T000000" _) eq_refl eq_refl)
    as [Hone Hall].
  split; [exact Hone|].
  apply Hall. repeat constructor; simpl;
    exists "token-alice", Samples.alice, 1, Samples.foo;
    (split; [|reflexivity]).
  - apply (alice_passes_checks "0101T000001").
  - apply (alice_passes_checks "0101T000002").
  - apply (alice_passes_checks "0101T000003").
Defined.

(** Alice pushes to "baz", which the registry does not have. *)
Lemma push_collection_not_found_witness :
  exists e,
    perform_create Samples.get_request_user Samples.validate_request
                   Samples.has_create_permission Samples.has_permission
                   Samples.get_short_uri "20190101T000000"
                   Samples.push_nowhere Samples.world_new =
    (inl e, Samples.world_new) /\
    e = PermissionDenied "Not Found" /\
    status_code e = 403.
Proof.
  destruct (push_collection_not_found
              Samples.get_request_user Samples.validate_request
              Samples.has_create_permission Samples.has_permission
              Samples.get_short_uri "20190101T000000" Samples.push_nowhere
              Samples.world_new "token-alice" Samples.alice)
    as [(e & Hpush & He & Hstatus & _) _].
  - repeat split.
  - intros pk coll Hrow. simpl in Hrow.
    apply lookup_singleton_Some in Hrow. destruct Hrow as [_ <-].
    vm_compute. discriminate.
  - exists e. repeat split; assumption.
Defined.

(** The exception for the missing collection is answered with the status
    of the "Unauthorized" and of the frozen rejection: it is not an error
    of another kind. *)
Lemma push_collection_not_found_counterexample :
  ~ (forall (get_request_user : string -> option User.t)
            (validate_request : string -> string -> string -> string -> bool)
            (has_create_permission : User.t -> bool)
            (has_permission : string -> Collection.t -> bool -> bool)
            (get_short_uri : Container.t -> string)
            timestamp request (w : World unit) auth owner,
       authenticated get_request_user validate_request
                     has_create_permission timestamp request auth owner ->
       (forall pk coll, collections w !! pk = Some coll ->
                        Some (Collection.name coll) <>
                        data request !! "collection") ->
       exists e,
         perform_create get_request_user validate_request
                        has_create_permission has_permission get_short_uri
                        timestamp request w = (inl e, w) /\
         status_code e <> status_code (PermissionDenied "Unauthorized") /\
         forall c, status_code e <>
                   status_code (PermissionDenied
                                  (get_short_uri c +:+
                                   " is frozen, push not allowed."))).
Proof.
  intros H.
  destruct (H Samples.get_request_user Samples.validate_request
              Samples.has_create_permission Samples.has_permission
              Samples.get_short_uri "20190101T000000" Samples.push_nowhere
              Samples.world_new "token-alice" Samples.alice)
    as (e & Hpush & Hdistinct & _).
  - repeat split.
  - intros pk coll Hrow. simpl in Hrow.
    apply lookup_singleton_Some in Hrow. destruct Hrow as [_ <-].
    vm_compute. discriminate.
  - vm_compute in Hpush. injection Hpush as <-.
    apply Hdistinct. reflexivity.
Qed.


(** Alice pushes "bar:latest" to "foo" when there is no such container
    yet, and again when there is one that is not frozen. *)
Lemma push_accepted_witness :
  let recipe :=
    {| RecipeFile.datafile := Some "Singularity";
       RecipeFile.collection := Some "foo";
       RecipeFile.tag := "latest";
       RecipeFile.name := Some "bar";
       RecipeFile.owner_id := 7 |} in
  (let (r, w') :=
     perform_create Samples.get_request_user Samples.validate_request
                    Samples.has_create_permission Samples.has_permission
                    Samples.get_short_uri "20190101T000000" Samples.push_bar
                    Samples.world_empty in
   r = inr tt /\ recipes w' = [recipe]) /\
  (let (r, w') :=
     perform_create Samples.get_request_user Samples.validate_request
                    Samples.has_create_permission Samples.has_permission
                    Samples.get_short_uri "20190101T000000" Samples.push_bar
                    Samples.world_new in
   r = inr tt /\ recipes w' = [recipe]).
Proof.
  intros recipe. split.
  - rewrite (push_accepted
               Samples.get_request_user Samples.validate_request
               Samples.has_create_permission Samples.has_permission
               Samples.get_short_uri "20190101T000000" Samples.push_bar
               Samples.world_empty "token-alice" Samples.alice 1 Samples.foo
               (alice_passes_checks "0101T000000" _)
               (or_introl eq_refl)).
    split; reflexivity.
  - rewrite (push_accepted
               Samples.get_request_user Samples.validate_request
               Samples.has_create_permission Samples.has_permission
               Samples.get_short_uri "20190101T000000" Samples.push_bar
               Samples.world_new "token-alice" Samples.alice 1 Samples.foo
               (alice_passes_checks "0101T000000" _)
               (or_intror (ex_intro _ 5
                  (ex_intro _ (Samples.bar false None)
                     (conj eq_refl eq_refl))))).
    split; reflexivity.
Defined.

(** * Webhook router and build notification *)

Section HookFacts.

Context {Params : Type}.
Variable load_params : string -> exn + Params.
Variable receive_github_hook : Request -> M Params HttpResponse.

Local Abbreviation World := (World Params).

(** C8 (as amended): a POST whose User-Agent header contains
    "GitHub-Hookshot" gets what the GitHub handler returns; a request that
    is not a POST, or a POST whose User-Agent header is there and does not
    contain the marker, gets the generic invalid-request response, the
    handler is not run and the world is left as it was. *)
Theorem hook_routing request (w : World) :
  (method request = "POST" ->
   forall user_agent,
     META request !! "HTTP_USER_AGENT" = Some user_agent ->
     (exists pre post, user_agent = pre +:+ "GitHub-Hookshot" +:+ post) ->
     receive_hook receive_github_hook request w =
     receive_github_hook request w) /\
  (method request <> "POST" \/
   (exists user_agent,
      META request !! "HTTP_USER_AGENT" = Some user_agent /\
      ~ exists pre post, user_agent = pre +:+ "GitHub-Hookshot" +:+ post) ->
   receive_hook receive_github_hook request w =
   (inr (JsonResponseMessage "Invalid request." None None), w)).
Proof.
  split.
  - intros Hm ua Hua Hsub. unfold receive_hook.
    rewrite decide_True by exact Hm. rewrite Hua.
    apply re_search_spec in Hsub. rewrite Hsub. reflexivity.
  - intros [Hm | (ua & Hua & Hsub)]; unfold receive_hook.
    + rewrite decide_False by exact Hm. reflexivity.
    + destruct (decide (method request = "POST")); [|reflexivity].
      rewrite Hua. destruct (re_search "GitHub-Hookshot" ua) eqn:Hs;
        [|reflexivity].
      exfalso. apply Hsub. apply re_search_spec. exact Hs.
Qed.

(** C9 (as amended): for a POST that names a stored container, whose body
    decodes and that carries a Content-Length header, one [complete_build]
    job with a delay of 10 seconds is scheduled exactly when the header is
    the string "47", nothing else changes, and the answer is the
    "Notification Received" message with status 200; a request that is not
    a POST gets the same answer and schedules nothing. *)
Theorem build_notification request cid (w : World) :
  (forall container params content_length,
     method request = "POST" ->
     containers w !! cid = Some container ->
     load_params (body request) = inr params ->
     META request !! "CONTENT_LENGTH" = Some content_length ->
     let (response, w') := receive_build load_params request cid w in
     response = inr (JsonResponseMessage "Notification Received" (Some 200)
                                         (Some "Received")) /\
     (content_length = "47" ->
      scheduled w' =
        (scheduled w ++ [{| delay_seconds := 10; func := complete_build;
                            job_cid := cid; job_params := Some params |}])%list) /\
     (content_length <> "47" -> scheduled w' = scheduled w) /\
     (scheduled w' <> scheduled w -> content_length = "47") /\
     collections w' = collections w /\
     containers w' = containers w /\
     recipes w' = recipes w /\
     flash w' = flash w) /\
  (method request <> "POST" ->
   receive_build load_params request cid w =
   (inr (JsonResponseMessage "Notification Received" (Some 200)
                             (Some "Received")), w)).
Proof.
  split.
  - intros container params len Hm Hc Hl Hlen.
    unfold receive_build, bind, get_world.
    rewrite decide_True by exact Hm. rewrite Hc, Hl, Hlen.
    destruct (decide (len = "47")) as [Heq|Hne]; simpl.
    + repeat split; intros H; [contradiction | exact Heq].
    + repeat split; intros H; [contradiction | exfalso; apply H; reflexivity].
  - intros Hm. unfold receive_build, bind.
    rewrite decide_False by exact Hm. reflexivity.
Qed.

End HookFacts.

(** A GitHub delivery reaches the handler; curl gets the generic answer. *)
Lemma hook_routing_witness :
  receive_hook Samples.receive_github_hook
               (Samples.hook_request "POST" "GitHub-Hookshot/abc")
               Samples.world_empty =
  Samples.receive_github_hook
               (Samples.hook_request "POST" "GitHub-Hookshot/abc")
               Samples.world_empty /\
  receive_hook Samples.receive_github_hook
               (Samples.hook_request "POST" "curl/7.0")
               Samples.world_empty =
  (inr (JsonResponseMessage "Invalid request." None None),
   Samples.world_empty).
Proof.
  split.
  - apply (proj1 (hook_routing Samples.receive_github_hook
                    (Samples.hook_request "POST" "GitHub-Hookshot/abc")
                    Samples.world_empty) eq_refl "GitHub-Hookshot/abc"
                 eq_refl).
    exists "", "/abc". reflexivity.
  - apply (proj2 (hook_routing Samples.receive_github_hook
                    (Samples.hook_request "POST" "curl/7.0")
                    Samples.world_empty)).
    right. exists "curl/7.0". split; [reflexivity|].
    intros Hsub. apply re_search_spec in Hsub. vm_compute in Hsub.
    discriminate Hsub.
Defined.

(** A GET with the GitHub marker never reaches the handler. *)
Lemma hook_routing_counterexample :
  ~ (forall (receive_github_hook : Request -> M unit HttpResponse)
            request (w : World unit) user_agent,
       META request !! "HTTP_USER_AGENT" = Some user_agent ->
       (exists pre post, user_agent = pre +:+ "GitHub-Hookshot" +:+ post) ->
       receive_hook receive_github_hook request w =
       receive_github_hook request w).
Proof.
  intros H.
  assert (Hsub : exists pre post,
             "GitHub-Hookshot/abc" = pre +:+ "GitHub-Hookshot" +:+ post)
    by (exists "", "/abc"; reflexivity).
  specialize (H Samples.receive_github_hook
                (Samples.hook_request "GET" "GitHub-Hookshot/abc")
                Samples.world_empty "GitHub-Hookshot/abc" eq_refl Hsub).
  vm_compute in H. discriminate H.
Qed.

(** A POST that does not send a User-Agent header ends in a KeyError. *)
Example hook_without_user_agent :
  receive_hook Samples.receive_github_hook
               (Samples.push_request "token-alice" "foo")
               Samples.world_empty =
  (inl (KeyError "HTTP_USER_AGENT"), Samples.world_empty).
Proof. reflexivity. Qed.

(** Cloud Build reports on container 5, with Content-Length "47" and with
    "48". *)
Lemma build_notification_witness :
  (let (response, w') :=
     receive_build Samples.load_params (Samples.notification "47") 5
                   Samples.world_new in
   response = inr (JsonResponseMessage "Notification Received" (Some 200)
                                       (Some "Received")) /\
   scheduled w' = [{| delay_seconds := 10; func := complete_build;
                      job_cid := 5; job_params := Some tt |}]) /\
  (let (response, w') :=
     receive_build Samples.load_params (Samples.notification "48") 5
                   Samples.world_new in
   response = inr (JsonResponseMessage "Notification Received" (Some 200)
                                       (Some "Received")) /\
   scheduled w' = []).
Proof.
  split.
  - pose proof (proj1 (build_notification Samples.load_params
                         (Samples.notification "47") 5 Samples.world_new)
                      (Samples.bar false None) tt "47"
                      eq_refl eq_refl eq_refl eq_refl) as H.
    destruct (receive_build _ _ _ _) as [response w'].
    destruct H as (Hr & Hs & _). split; [exact Hr|].
    apply Hs. reflexivity.
  - pose proof (proj1 (build_notification Samples.load_params
                         (Samples.notification "48") 5 Samples.world_new)
                      (Samples.bar false None) tt "48"
                      eq_refl eq_refl eq_refl eq_refl) as H.
    destruct (receive_build _ _ _ _) as [response w'].
    destruct H as (Hr & _ & Hs & _). split; [exact Hr|].
    apply Hs. discriminate.
Defined.

(** A notification for a container the store does not have, with
    Content-Length "47": no answer with status 200, and no job. *)
Lemma build_notification_counterexample :
  ~ (forall (load_params : string -> exn + unit) request cid (w : World unit),
       method request = "POST" ->
       let (response, w') := receive_build load_params request cid w in
       response = inr (JsonResponseMessage "Notification Received" (Some 200)
                                           (Some "Received")) /\
       (META request !! "CONTENT_LENGTH" = Some "47" <->
        exists params,
          scheduled w' =
          (scheduled w ++ [{| delay_seconds := 10; func := complete_build;
                              job_cid := cid;
                              job_params := Some params |}])%list)).
Proof.
  intros H.
  specialize (H Samples.load_params (Samples.notification "47") 5
                Samples.world_empty eq_refl).
  vm_compute in H. destruct H as [H _]. discriminate H.
Qed.

(** * More about the freeze toggle *)

Section FreezeSequences.

Context {Params : Type}.
Variable has_edit_permission : Container.t -> Request -> bool.

Local Abbreviation World := (World Params).
Local Abbreviation toggle :=
  (change_freeze_status (Params:=Params) has_edit_permission).
Local Abbreviation toggles :=
  (freeze_requests (Params:=Params) has_edit_permission).

(** What one request, whatever it is, can do to the world. *)
Lemma toggle_world now request cid (w : World) :
  let w' := snd (toggle now request cid w) in
  collections w' = collections w /\
  recipes w' = recipes w /\
  scheduled w' = scheduled w /\
  (exists said, flash w' = (flash w ++ said)%list) /\
  (containers w' = containers w \/
   exists u c, user request = Some u /\
               containers w !! cid = Some c /\
               has_edit_permission c request = true /\
               containers w' = <[cid := toggled now c]> (containers w)).
Proof.
  destruct (user request) as [u|] eqn:Hu.
  - destruct (containers w !! cid) as [c|] eqn:Hc.
    + destruct (has_edit_permission c request) eqn:Hp.
      * rewrite (toggle_permitted _ now request cid w u c Hu Hc Hp). simpl.
        repeat split; eauto 10.
      * rewrite (toggle_denied _ now request cid w u c Hu Hc Hp). simpl.
        repeat split; eauto.
    + rewrite (toggle_missing _ now request cid w Hc). simpl.
      repeat split; [exists []; symmetry; apply app_nil_r | left; reflexivity].
  - rewrite (toggle_anonymous _ now request cid w Hu). simpl.
    repeat split; [exists []; symmetry; apply app_nil_r | left; reflexivity].
Qed.

(** Any sequence of freeze and unfreeze requests for one container leaves
    every other container, the collections, the recipes and the scheduler
    as they were, never removes or creates the row it names, and only adds
    flash messages. *)
Theorem freeze_requests_frame cid ops : forall w : World,
  let w' := toggles cid ops w in
  collections w' = collections w /\
  recipes w' = recipes w /\
  scheduled w' = scheduled w /\
  (exists said, flash w' = (flash w ++ said)%list) /\
  (forall cid', cid' <> cid -> containers w' !! cid' = containers w !! cid') /\
  (containers w' !! cid = None <-> containers w !! cid = None).
Proof.
  induction ops as [|[now request] ops IH]; intros w; simpl.
  - repeat split; auto. exists []. symmetry. apply app_nil_r.
  - destruct (toggle_world now request cid w)
      as (Hcol & Hrec & Hsch & [said Hfl] & Hcon).
    destruct (IH (snd (toggle now request cid w)))
      as (Hcol' & Hrec' & Hsch' & [said' Hfl'] & Hoth' & Hdom').
    split; [congruence|]. split; [congruence|]. split; [congruence|].
    split; [exists (said ++ said')%list;
            rewrite Hfl', Hfl, app_assoc; reflexivity|].
    split.
    + intros cid' Hne. rewrite (Hoth' cid' Hne).
      destruct Hcon as [-> | (u & c & _ & _ & _ & ->)]; [reflexivity|].
      apply lookup_insert_ne. congruence.
    + rewrite Hdom'.
      destruct Hcon as [-> | (u & c & _ & Hc & _ & ->)]; [reflexivity|].
      rewrite lookup_insert_eq, Hc. split; discriminate.
Qed.

(** One request keeps "frozen implies versioned". *)
Lemma toggle_keeps_frozen_versioned now request cid (w : World) c :
  containers w !! cid = Some c ->
  (Container.frozen c = true -> Container.version c <> None) ->
  exists c', containers (snd (toggle now request cid w)) !! cid = Some c' /\
             (Container.frozen c' = true -> Container.version c' <> None).
Proof.
  intros Hc Hinv.
  destruct (toggle_world now request cid w)
    as (_ & _ & _ & _ & [-> | (u & c0 & _ & Hc0 & _ & ->)]).
  - exists c. split; assumption.
  - assert (c0 = c) by congruence. subst c0.
    exists (toggled now c). split; [apply lookup_insert_eq|].
    unfold toggled. simpl.
    destruct (Container.version c), (Container.frozen c);
      simpl; intros H; discriminate.
Qed.

(** A container that is never frozen without a version stays so under
    every sequence of freeze and unfreeze requests: the toggle cannot
    reach the state "frozen, no version". *)
Theorem freeze_requests_keep_frozen_versioned cid ops : forall (w : World) c,
  containers w !! cid = Some c ->
  (Container.frozen c = true -> Container.version c <> None) ->
  exists c', containers (toggles cid ops w) !! cid = Some c' /\
             (Container.frozen c' = true -> Container.version c' <> None).
Proof.
  induction ops as [|[now request] ops IH]; intros w c Hc Hinv; simpl.
  - exists c. split; assumption.
  - destruct (toggle_keeps_frozen_versioned now request cid w c Hc Hinv)
      as (c1 & Hc1 & Hinv1).
    exact (IH _ c1 Hc1 Hinv1).
Qed.

(** After any sequence of requests the version of the container is the one
    it had or the clock reading of one of the requests; if it had one, it
    is that one. *)
Theorem freeze_requests_version_source cid ops : forall (w : World) c,
  containers w !! cid = Some c ->
  exists c', containers (toggles cid ops w) !! cid = Some c' /\
             (Container.version c' = Container.version c \/
              Container.version c = None /\
              exists now request, In (now, request) ops /\
                                  Container.version c' = Some now).
Proof.
  induction ops as [|[now request] ops IH]; intros w c Hc; simpl.
  - exists c. split; [assumption | left; reflexivity].
  - destruct (toggle_world now request cid w)
      as (_ & _ & _ & _ & Hcon).
    assert (Hstep : exists c1,
               containers (snd (toggle now request cid w)) !! cid = Some c1 /\
               (Container.version c1 = Container.version c \/
                Container.version c = None /\
                Container.version c1 = Some now)).
    { destruct Hcon as [-> | (u & c0 & _ & Hc0 & _ & ->)].
      - exists c. split; [assumption | left; reflexivity].
      - assert (c0 = c) by congruence. subst c0.
        exists (toggled now c). split; [apply lookup_insert_eq|].
        unfold toggled. simpl.
        destruct (Container.version c), (Container.frozen c); auto. }
    destruct Hstep as (c1 & Hc1 & Hv1).
    destruct (IH _ c1 Hc1) as (c' & Hc' & Hv').
    exists c'. split; [exact Hc'|].
    destruct Hv' as [Hsame | (Hnone & now' & request' & Hin & Hv')].
    + destruct Hv1 as [Hv1 | [Hnone Hv1]].
      * left. congruence.
      * right. split; [exact Hnone|].
        exists now, request. split; [left; reflexivity | congruence].
    + destruct Hv1 as [Hv1 | [Hnone1 Hv1]].
      * right. split; [congruence|].
        exists now', request'. split; [right; exact Hin | exact Hv'].
      * congruence.
Qed.

(** After n toggles by authenticated principals who may edit the container,
    it is frozen exactly when it was frozen before and n is even, or was
    not and n is odd. *)
Theorem freeze_requests_parity cid ops : forall (w : World) c,
  containers w !! cid = Some c ->
  Forall (fun op => is_Some (user (snd op)) /\
                    forall c, has_edit_permission c (snd op) = true) ops ->
  exists c', containers (toggles cid ops w) !! cid = Some c' /\
             Container.frozen c' =
             (if Nat.even (length ops) then Container.frozen c
              else negb (Container.frozen c)).
Proof.
  induction ops as [|[now request] ops IH]; intros w c Hc Hall.
  - exists c. split; [assumption | reflexivity].
  - inversion Hall as [|? ? [[u Hu] Hp] Hrest]; subst. simpl in Hu, Hp.
    change (toggles cid ((now, request) :: ops) w)
      with (toggles cid ops (snd (toggle now request cid w))).
    assert (Hc1 : containers (snd (toggle now request cid w)) !! cid =
                  Some (toggled now c)).
    { rewrite (toggle_permitted _ now request cid w u c Hu Hc (Hp c)).
      simpl. apply lookup_insert_eq. }
    destruct (IH _ _ Hc1 Hrest) as (c' & Hc' & Hf').
    exists c'. split; [exact Hc'|].
    rewrite Hf'. change (length ((now, request) :: ops)) with (S (length ops)).
    rewrite Nat.even_succ, <- Nat.negb_even. unfold toggled. simpl.
    destruct (Nat.even (length ops)); simpl;
      [reflexivity | apply negb_involutive].
Qed.

(** A request that is anonymous is sent to the login page, and one for a
    container that is not stored ends in the NameError of the missing
    import of Http404; neither changes the world. *)
Theorem toggle_turned_away now request cid (w : World) :
  (user request = None ->
   toggle now request cid w = (inr redirect_to_login, w)) /\
  (is_Some (user request) -> containers w !! cid = None ->
   toggle now request cid w = (inl (NameError "Http404"), w)).
Proof.
  split.
  - apply toggle_anonymous.
  - intros [u Hu] Hc. unfold change_freeze_status, login_required.
    rewrite Hu. unfold change_freeze_status_view, get_container, bind,
      get_world. simpl. rewrite Hc. reflexivity.
Qed.

End FreezeSequences.

(** Alice toggles container 5 twice and bob once; container 6 is still
    what it was. *)
Lemma freeze_requests_frame_witness :
  let w := Samples.registry
             (<[ 6 := Samples.bar true None ]>
              {[ 5 := Samples.bar false None ]}) in
  let ops := [("t1", Samples.page_request Samples.alice);
              ("t2", Samples.page_request Samples.bob);
              ("t3", Samples.page_request Samples.alice)] in
  containers (freeze_requests Samples.has_edit_permission 5 ops w) !! 6 =
  Some (Samples.bar true None).
Proof.
  intros w ops.
  destruct (freeze_requests_frame Samples.has_edit_permission 5 ops w)
    as (_ & _ & _ & _ & Hothers & _).
  transitivity (containers w !! 6); [|reflexivity].
  apply Hothers. discriminate.
Defined.

(** Three toggles by alice on the new "bar:latest". *)
Lemma freeze_requests_keep_frozen_versioned_witness :
  let ops := [("t1", Samples.page_request Samples.alice);
              ("t2", Samples.page_request Samples.alice);
              ("t3", Samples.page_request Samples.alice)] in
  exists c',
    containers (freeze_requests Samples.has_edit_permission 5 ops
                                Samples.world_new) !! 5 = Some c' /\
    (Container.frozen c' = true -> Container.version c' <> None).
Proof.
  intros ops.
  apply (freeze_requests_keep_frozen_versioned Samples.has_edit_permission
           5 ops Samples.world_new (Samples.bar false None)).
  - reflexivity.
  - simpl. discriminate.
Defined.

(** Bob is refused at t1, alice freezes at t2. *)
Lemma freeze_requests_version_source_witness :
  let ops := [("t1", Samples.page_request Samples.bob);
              ("t2", Samples.page_request Samples.alice)] in
  exists c',
    containers (freeze_requests Samples.has_edit_permission 5 ops
                                Samples.world_new) !! 5 = Some c' /\
    (Container.version c' = None \/
     exists now request, In (now, request) ops /\
                         Container.version c' = Some now).
Proof.
  intros ops.
  destruct (freeze_requests_version_source Samples.has_edit_permission
              5 ops Samples.world_new (Samples.bar false None) eq_refl)
    as (c' & Hc' & [Hsame | [_ Hnow]]).
  - exists c'. split; [exact Hc' | left; exact Hsame].
  - exists c'. split; [exact Hc' | right; exact Hnow].
Defined.

(** Three toggles by alice leave "bar:latest" frozen. *)
Lemma freeze_requests_parity_witness :
  let ops := [("t1", Samples.page_request Samples.alice);
              ("t2", Samples.page_request Samples.alice);
              ("t3", Samples.page_request Samples.alice)] in
  exists c',
    containers (freeze_requests Samples.has_edit_permission 5 ops
                                Samples.world_new) !! 5 = Some c' /\
    Container.frozen c' = true.
Proof.
  intros ops.
  apply (freeze_requests_parity Samples.has_edit_permission
           5 ops Samples.world_new (Samples.bar false None)).
  - reflexivity.
  - repeat constructor; simpl; eauto.
Defined.

(** An anonymous request, and alice asking for container 9. *)
Lemma toggle_turned_away_witness :
  change_freeze_status Samples.has_edit_permission "t1"
    (Samples.hook_request "POST" "curl/7.0") 5 Samples.world_new =
  (inr redirect_to_login, Samples.world_new) /\
  change_freeze_status Samples.has_edit_permission "t1"
    (Samples.page_request Samples.alice) 9 Samples.world_new =
  (inl (NameError "Http404"), Samples.world_new).
Proof.
  split.
  - apply (proj1 (toggle_turned_away Samples.has_edit_permission "t1"
                    (Samples.hook_request "POST" "curl/7.0") 5
                    Samples.world_new)).
    reflexivity.
  - apply (proj2 (toggle_turned_away Samples.has_edit_permission "t1"
                    (Samples.page_request Samples.alice) 9
                    Samples.world_new)).
    + eexists. reflexivity.
    + reflexivity.
Defined.

(** * More about queries *)

Section QueryUpdates.

Context {A : Type}.
Implicit Types (lookup : A -> bool) (table : gmap Z A).

(** The row [get] returns is the only one that satisfies the lookup. *)
Lemma objects_get_found_only lookup table pk row :
  objects_get lookup table = Found pk row ->
  forall pk' row', table !! pk' = Some row' -> lookup row' = true -> pk' = pk.
Proof.
  unfold objects_get. intros H pk' row' Hrow Hl.
  assert (Hin : In (pk', row')
                   (List.filter (fun kv => lookup (snd kv))
                                (map_to_list table))).
  { apply filter_In. split; [apply in_map_to_list; exact Hrow | exact Hl]. }
  destruct (List.filter _ _) as [|[k r] [|y l]]; try discriminate.
  inversion H; subst. destruct Hin as [Heq | []]. congruence.
Qed.

(** Saving another row under the key of the one found, when the new row
    still satisfies the lookup, makes [get] return the new row. *)
Lemma objects_get_insert_found lookup table pk row row' :
  objects_get lookup table = Found pk row ->
  lookup row' = true ->
  objects_get lookup (<[pk := row']> table) = Found pk row'.
Proof.
  intros Hget Hl. apply objects_get_unique.
  - apply lookup_insert_eq.
  - exact Hl.
  - intros pk' r' Hrow Hl'. destruct (decide (pk' = pk)) as [|Hne]; [assumption|].
    rewrite lookup_insert_ne in Hrow by congruence.
    eapply objects_get_found_only; eauto.
Qed.

(** Deleting the row found leaves none that satisfies the lookup. *)
Lemma objects_get_delete_found lookup table pk row :
  objects_get lookup table = Found pk row ->
  objects_get lookup (delete pk table) = NoneFound.
Proof.
  intros Hget. apply objects_get_none. intros pk' r' Hrow.
  destruct (lookup r') eqn:Hl; [|reflexivity]. exfalso.
  destruct (decide (pk' = pk)) as [->|Hne].
  - rewrite lookup_delete_eq in Hrow. discriminate.
  - rewrite lookup_delete_ne in Hrow by congruence.
    apply Hne. eapply objects_get_found_only; eauto.
Qed.

End QueryUpdates.

(** * More about push admission *)

Section PushOutcomes.

Context {Params : Type}.
Variable get_request_user : string -> option User.t.
Variable validate_request : string -> string -> string -> string -> bool.
Variable has_create_permission : User.t -> bool.
Variable has_permission : string -> Collection.t -> bool -> bool.
Variable get_short_uri : Container.t -> string.

Local Abbreviation World := (World Params).
Local Abbreviation push :=
  (perform_create (Params:=Params) get_request_user validate_request
                  has_create_permission has_permission get_short_uri).
Local Abbreviation push_all :=
  (pushes (Params:=Params) get_request_user validate_request
          has_create_permission has_permission get_short_uri).
Local Abbreviation passes_checks :=
  (passes_checks (Params:=Params) get_request_user validate_request
                 has_create_permission has_permission).
Local Abbreviation authenticated :=
  (authenticated get_request_user validate_request has_create_permission).

(** The world after an accepted push. *)
Local Abbreviation with_recipe w request owner :=
  {| collections := collections w;
     containers := containers w;
     recipes := recipes w ++ [recipe_of_request request owner];
     scheduled := scheduled w;
     flash := flash w |}.

(** A push either ends in an exception with the world as it was, or passed
    every check, found its target absent or not frozen, and wrote one
    recipe. *)
Lemma push_outcome timestamp request (w : World) :
  (exists e, push timestamp request w = (inl e, w)) \/
  (exists auth owner pk coll,
     passes_checks timestamp request w auth owner pk coll /\
     (target request pk w = NoneFound \/
      exists k c, target request pk w = Found k c /\
                  Container.frozen c = false) /\
     push timestamp request w = (inr tt, with_recipe w request owner)).
Proof.
  unfold perform_create.
  destruct (META request !! "HTTP_AUTHORIZATION") as [auth|] eqn:Hauth;
    [|left; eauto].
  destruct (validate_request auth _ "build" timestamp) eqn:Hvalid;
    simpl; [|left; eauto].
  destruct (get_request_user auth) as [owner|] eqn:Howner; [|left; eauto].
  destruct (has_create_permission owner) eqn:Hcreate; simpl; [|left; eauto].
  unfold bind, get_world.
  destruct (objects_get (collection_lookup _) (collections w))
    as [pk coll| |] eqn:Hcoll; [|left; eauto|left; eauto].
  destruct (bool_decide (User.id owner ∈ Collection.owners coll)) eqn:Hown;
    simpl; [|left; eauto].
  destruct (has_permission auth coll false) eqn:Hperm; simpl; [|left; eauto].
  assert (Hchecks : passes_checks timestamp request w auth owner pk coll).
  { apply bool_decide_eq_true in Hown. repeat split; assumption. }
  destruct (objects_get (container_lookup _ _ _) (containers w))
    as [k c| |] eqn:Htarget; [| |left; eauto].
  - destruct (Container.frozen c) eqn:Hfrozen; simpl; [left; eauto|].
    right. exists auth, owner, pk, coll.
    split; [exact Hchecks|]. split; [|reflexivity].
    right. exists k, c. split; [exact Htarget | exact Hfrozen].
  - right. exists auth, owner, pk, coll.
    split; [exact Hchecks|]. split; [|reflexivity].
    left. exact Htarget.
Qed.

(** A push without an Authorization header is turned away with
    "Authentication Required" before anything else is looked at, and the
    store stays as it was. *)
Theorem push_without_token timestamp request (w : World) :
  META request !! "HTTP_AUTHORIZATION" = None ->
  push timestamp request w =
  (inl (PermissionDenied "Authentication Required"), w).
Proof. intros H. unfold perform_create. rewrite H. reflexivity. Qed.

(** A push by an authenticated principal who is not among the owners of
    the collection is turned away with "Unauthorized", whatever the
    permission checker or the state of the target would say. *)
Theorem push_by_non_owner timestamp request (w : World) auth owner pk coll :
  authenticated timestamp request auth owner ->
  objects_get (collection_lookup (data request !! "collection"))
              (collections w) = Found pk coll ->
  User.id owner ∉ Collection.owners coll ->
  push timestamp request w = (inl (PermissionDenied "Unauthorized"), w).
Proof.
  intros Ha Hcoll Hown.
  rewrite (push_after_authentication _ _ _ _ _ _ _ _ _ _ Ha), Hcoll.
  rewrite (bool_decide_eq_false_2 _ Hown). reflexivity.
Qed.

(** A push never touches the collections, the containers, the scheduler
    or the flash messages; when it fails the recipes are as they were, and
    when it succeeds exactly one recipe was added. *)
Theorem push_frame timestamp request (w : World) :
  let (r, w') := push timestamp request w in
  collections w' = collections w /\
  containers w' = containers w /\
  scheduled w' = scheduled w /\
  flash w' = flash w /\
  match r with
  | inl _ => w' = w
  | inr _ => exists recipe, recipes w' = (recipes w ++ [recipe])%list
  end.
Proof.
  destruct (push_outcome timestamp request w)
    as [[e ->] | (auth & owner & pk & coll & _ & _ & ->)].
  - repeat split.
  - repeat split. eexists. reflexivity.
Qed.

(** A push is accepted only if it carried a token that resolved to a
    principal, the signed payload validated, the principal may create,
    the collection exists, the principal is one of its owners and has push
    permission, and the target is absent or not frozen; the recipe written
    is the one of the request, owned by that principal. *)
Theorem accepted_push_passed_checks timestamp request (w w' : World) :
  push timestamp request w = (inr tt, w') ->
  exists auth owner pk coll,
    passes_checks timestamp request w auth owner pk coll /\
    (target request pk w = NoneFound \/
     exists k c, target request pk w = Found k c /\
                 Container.frozen c = false) /\
    recipes w' =
      (recipes w ++
       [{| RecipeFile.datafile := data request !! "datafile";
           RecipeFile.collection := data request !! "collection";
           RecipeFile.tag := default "latest" (data request !! "tag");
           RecipeFile.name := data request !! "name";
           RecipeFile.owner_id := User.id owner |}])%list.
Proof.
  intros Hpush.
  destruct (push_outcome timestamp request w)
    as [[e He] | (auth & owner & pk & coll & Hchecks & Htarget & Hok)].
  - rewrite He in Hpush. discriminate.
  - rewrite Hok in Hpush. injection Hpush as <-.
    exists auth, owner, pk, coll.
    split; [exact Hchecks|]. split; [exact Htarget | reflexivity].
Qed.

(** The checks and the target of a push read the collections and the
    containers only. *)
Lemma passes_checks_same_tables timestamp request (w w' : World)
    auth owner pk coll :
  collections w' = collections w ->
  passes_checks timestamp request w auth owner pk coll ->
  passes_checks timestamp request w' auth owner pk coll.
Proof.
  intros Hcol (Ha & Hc & Ho & Hp). repeat split; try assumption.
  - apply Ha.
  - apply Ha.
  - apply Ha.
  - apply Ha.
  - rewrite Hcol. exact Hc.
Qed.

Lemma pushes_accepted reqs : forall (w0 w : World),
  collections w = collections w0 ->
  containers w = containers w0 ->
  Forall (fun r =>
            exists auth owner pk coll,
              passes_checks (fst r) (snd r) w0 auth owner pk coll /\
              (target (snd r) pk w0 = NoneFound \/
               exists k c, target (snd r) pk w0 = Found k c /\
                           Container.frozen c = false)) reqs ->
  let (rs, w') := push_all reqs w in
  rs = List.map (fun _ => inr tt) reqs /\
  collections w' = collections w0 /\
  containers w' = containers w0 /\
  exists new, recipes w' = (recipes w ++ new)%list /\
              length new = length reqs.
Proof.
  induction reqs as [|[ts rq] reqs IH]; intros w0 w Hcol Hcon Hall.
  - simpl. repeat split; try assumption.
    exists []. split; [symmetry; apply app_nil_r | reflexivity].
  - inversion Hall as [|? ? (a & o & p & cl & Hc & Ht) Hrest]; subst.
    simpl in Hc, Ht.
    assert (Hc' : passes_checks ts rq w a o p cl).
    { eapply passes_checks_same_tables; eauto. }
    assert (Ht' : target rq p w = NoneFound \/
                  exists k c, target rq p w = Found k c /\
                              Container.frozen c = false).
    { unfold target in *. rewrite Hcon. exact Ht. }
    assert (Hok : push ts rq w = (inr tt, with_recipe w rq o)).
    { rewrite (push_after_checks _ _ _ _ _ _ _ _ _ _ _ _ Hc').
      destruct Ht' as [-> | (k & c & -> & Hf)]; [|rewrite Hf]; reflexivity. }
    simpl. rewrite Hok.
    match goal with
    | |- context [push_all reqs ?w1] =>
        specialize (IH w0 w1 Hcol Hcon Hrest);
        destruct (push_all reqs w1) as [rs w'']
    end.
    destruct IH as (Hrs & Hcol' & Hcon' & new & Hnew & Hlen).
    repeat split; try assumption.
    + rewrite Hrs. reflexivity.
    + eexists (_ :: new). split.
      * rewrite Hnew. simpl. rewrite <- app_assoc. reflexivity.
      * simpl. rewrite Hlen. reflexivity.
Qed.

(** Pushes that pass every check and whose targets are absent or not
    frozen are all accepted, one after the other: each adds one recipe, no
    container is created or changed, so the next one meets the same
    store. *)
Theorem pushes_accumulate reqs (w : World) :
  Forall (fun r =>
            exists auth owner pk coll,
              passes_checks (fst r) (snd r) w auth owner pk coll /\
              (target (snd r) pk w = NoneFound \/
               exists k c, target (snd r) pk w = Found k c /\
                           Container.frozen c = false)) reqs ->
  let (rs, w') := push_all reqs w in
  rs = List.map (fun _ => inr tt) reqs /\
  containers w' = containers w /\
  exists new, recipes w' = (recipes w ++ new)%list /\
              length new = length reqs.
Proof.
  intros Hall.
  pose proof (pushes_accepted reqs w w eq_refl eq_refl Hall) as H.
  destruct (push_all reqs w) as [rs w'].
  destruct H as (Hrs & _ & Hcon & Hnew). repeat split; assumption.
Qed.

End PushOutcomes.

(** A request without an Authorization header. *)
Lemma push_without_token_witness :
  perform_create Samples.get_request_user Samples.validate_request
                 Samples.has_create_permission Samples.has_permission
                 Samples.get_short_uri "20190101T000000"
                 (Samples.hook_request "POST" "curl/7.0")
                 Samples.world_new =
  (inl (PermissionDenied "Authentication Required"), Samples.world_new).
Proof.
  apply (push_without_token
           Samples.get_request_user Samples.validate_request
           Samples.has_create_permission Samples.has_permission
           Samples.get_short_uri "20190101T000000"
           (Samples.hook_request "POST" "curl/7.0") Samples.world_new).
  reflexivity.
Defined.

(** Bob, with a valid signature, pushes to alice's collection. *)
Lemma push_by_non_owner_witness :
  perform_create Samples.get_request_user Samples.validate_signed
                 Samples.has_create_permission Samples.has_permission
                 Samples.get_short_uri "20190101T000000"
                 Samples.push_as_bob Samples.world_new =
  (inl (PermissionDenied "Unauthorized"), Samples.world_new).
Proof.
  apply (push_by_non_owner
           Samples.get_request_user Samples.validate_signed
           Samples.has_create_permission Samples.has_permission
           Samples.get_short_uri "20190101T000000"
           Samples.push_as_bob Samples.world_new
           "token-bob" Samples.bob 1 Samples.foo).
  - repeat split.
  - reflexivity.
  - simpl. intros Hin. apply list_elem_of_singleton in Hin. discriminate.
Defined.

(** Alice's accepted push to the empty registry. *)
Lemma accepted_push_passed_checks_witness :
  exists auth owner pk coll,
    passes_checks Samples.get_request_user Samples.validate_request
                  Samples.has_create_permission Samples.has_permission
                  "20190101T000000" Samples.push_bar Samples.world_empty
                  auth owner pk coll /\
    User.id owner = 7.
Proof.
  destruct (accepted_push_passed_checks
              Samples.get_request_user Samples.validate_request
              Samples.has_create_permission Samples.has_permission
              Samples.get_short_uri "20190101T000000" Samples.push_bar
              Samples.world_empty
              (snd (perform_create
                      Samples.get_request_user Samples.validate_request
                      Samples.has_create_permission Samples.has_permission
                      Samples.get_short_uri "20190101T000000"
                      Samples.push_bar Samples.world_empty))
              eq_refl)
    as (auth & owner & pk & coll & Hchecks & _ & Hrecipes).
  exists auth, owner, pk, coll. split; [exact Hchecks|].
  vm_compute in Hrecipes.
  injection Hrecipes as Hid. symmetry. exact Hid.
Defined.

(** Alice pushes "bar:latest" three times while it is not frozen. *)
Lemma pushes_accumulate_witness :
  let (rs, w') :=
    pushes Samples.get_request_user Samples.validate_request
           Samples.has_create_permission Samples.has_permission
           Samples.get_short_uri
           [("20190101T000001", Samples.push_bar);
            ("20190101T000002", Samples.push_bar);
            ("20190101T000003", Samples.push_bar)]
           Samples.world_new in
  rs = [inr tt; inr tt; inr tt] /\
  containers w' = containers Samples.world_new /\
  exists new, recipes w' = new /\ length new = 3%nat.
Proof.
  apply (pushes_accumulate
           Samples.get_request_user Samples.validate_request
           Samples.has_create_permission Samples.has_permission
           Samples.get_short_uri
           [("20190101T000001", Samples.push_bar);
            ("20190101T000002", Samples.push_bar);
            ("20190101T000003", Samples.push_bar)]
           Samples.world_new).
  repeat constructor; simpl;
    exists "token-alice", Samples.alice, 1, Samples.foo;
    (split; [|right; exists 5, (Samples.bar false None);
               split; reflexivity]).
  - apply (alice_passes_checks "0101T000001").
  - apply (alice_passes_checks "0101T000002").
  - apply (alice_passes_checks "0101T000003").
Defined.

(** * Deleting a container, and how freeze, delete and push combine *)

Section Lifecycle.

Context {Params : Type}.
Variable get_request_user : string -> option User.t.
Variable validate_request : string -> string -> string -> string -> bool.
Variable has_create_permission : User.t -> bool.
Variable has_permission : string -> Collection.t -> bool -> bool.
Variable get_short_uri : Container.t -> string.
Variable has_edit_permission : Container.t -> Request -> bool.
Variable get_absolute_url : Collection.t -> string.

Local Abbreviation World := (World Params).
Local Abbreviation Site := (Site Params).
Local Abbreviation push :=
  (perform_create (Params:=Params) get_request_user validate_request
                  has_create_permission has_permission get_short_uri).
Local Abbreviation passes_checks :=
  (passes_checks (Params:=Params) get_request_user validate_request
                 has_create_permission has_permission).
Local Abbreviation toggle :=
  (change_freeze_status (Params:=Params) has_edit_permission).
Local Abbreviation delete :=
  (delete_container (Params:=Params) has_edit_permission get_absolute_url).

(** The world after a permitted deletion of [cid]. *)
Local Abbreviation without w cid :=
  {| collections := collections w;
     containers := base.delete cid (containers w);
     recipes := recipes w;
     scheduled := scheduled w;
     flash := flash w ++ ["Container successfully deleted."] |}.

Lemma delete_anonymous request cid (s : Site) :
  user request = None ->
  delete request cid s = (inr redirect_to_login, s).
Proof. intros Hu. unfold delete_container. rewrite Hu. reflexivity. Qed.

Lemma delete_missing request cid (s : Site) u :
  user request = Some u ->
  containers (world s) !! cid = None ->
  delete request cid s = (inl (NameError "Http404"), s).
Proof.
  intros Hu Hc. unfold delete_container. rewrite Hu.
  unfold get_container, bind, get_world. rewrite Hc.
  destruct s; reflexivity.
Qed.

Lemma delete_denied request cid (s : Site) u c :
  user request = Some u ->
  containers (world s) !! cid = Some c ->
  has_edit_permission c request = false ->
  delete request cid s =
  (inr (redirect "collections" None),
   {| world :=
        {| collections := collections (world s);
           containers := containers (world s);
           recipes := recipes (world s);
           scheduled := scheduled (world s);
           flash := flash (world s) ++ ["This action is not permitted."] |};
      default_queue := default_queue s |}).
Proof.
  intros Hu Hc Hp. unfold delete_container. rewrite Hu.
  unfold get_container, bind, get_world. rewrite Hc.
  unfold ret at 1. rewrite Hp. reflexivity.
Qed.

Lemma delete_permitted request cid (s : Site) u c :
  user request = Some u ->
  containers (world s) !! cid = Some c ->
  has_edit_permission c request = true ->
  delete request cid s =
  (match collections (world s) !! Container.collection c with
   | Some coll => inr (redirect (get_absolute_url coll) None)
   | None => inl (DoesNotExist "Collection")
   end,
   {| world := without (world s) cid;
      default_queue :=
        default_queue s ++
        [{| enq_func := delete_build; enq_cid := cid |}] |}).
Proof.
  intros Hu Hc Hp. unfold delete_container. rewrite Hu.
  unfold get_container, bind, get_world. rewrite Hc.
  unfold ret at 1. rewrite Hp. simpl.
  unfold container_collection, bind, get_world. simpl.
  destruct (collections (world s) !! Container.collection c); reflexivity.
Qed.

(** A container is deleted, and a job put on the queue, only for an
    authenticated request with edit permission on a stored container; a
    request without that permission changes neither the store nor the
    queue and is told "This action is not permitted.". *)
Theorem delete_container_guard request cid (s : Site) :
  let (r, s') := delete request cid s in
  (containers (world s') <> containers (world s) \/
   default_queue s' <> default_queue s ->
   exists u c, user request = Some u /\
               containers (world s) !! cid = Some c /\
               has_edit_permission c request = true) /\
  (forall u c, user request = Some u ->
               containers (world s) !! cid = Some c ->
               has_edit_permission c request = false ->
     r = inr (redirect "collections" None) /\
     containers (world s') = containers (world s) /\
     recipes (world s') = recipes (world s) /\
     default_queue s' = default_queue s /\
     flash (world s') =
       (flash (world s) ++ ["This action is not permitted."])%list).
Proof.
  destruct (user request) as [u|] eqn:Hu.
  - destruct (containers (world s) !! cid) as [c|] eqn:Hc.
    + destruct (has_edit_permission c request) eqn:Hp.
      * rewrite (delete_permitted request cid s u c Hu Hc Hp).
        split; [eauto|]. intros u' c' _ Hc' Hp'.
        assert (c' = c) by congruence. subst c'. congruence.
      * rewrite (delete_denied request cid s u c Hu Hc Hp). simpl.
        split; [intros [H|H]; exfalso; apply H; reflexivity|].
        intros u' c' _ _ _. repeat split.
    + rewrite (delete_missing request cid s u Hu Hc).
      split; [intros [H|H]; exfalso; apply H; reflexivity|].
      intros u' c' _ Hc'. discriminate.
  - rewrite (delete_anonymous request cid s Hu).
    split; [intros [H|H]; exfalso; apply H; reflexivity|].
    intros u' c' Hu'. discriminate.
Qed.

(** A permitted deletion removes the row of the container and nothing else
    from the store (the recipes pushed for it stay), puts exactly one
    [delete_build] job for the container on the default queue, and sends
    the caller to the page of the collection. *)
Theorem delete_container_effect request cid (s : Site) u c coll :
  user request = Some u ->
  containers (world s) !! cid = Some c ->
  has_edit_permission c request = true ->
  collections (world s) !! Container.collection c = Some coll ->
  let (r, s') := delete request cid s in
  r = inr (redirect (get_absolute_url coll) None) /\
  containers (world s') !! cid = None /\
  (forall cid', cid' <> cid ->
     containers (world s') !! cid' = containers (world s) !! cid') /\
  collections (world s') = collections (world s) /\
  recipes (world s') = recipes (world s) /\
  scheduled (world s') = scheduled (world s) /\
  default_queue s' =
    (default_queue s ++ [{| enq_func := delete_build; enq_cid := cid |}])%list /\
  flash (world s') =
    (flash (world s) ++ ["Container successfully deleted."])%list.
Proof.
  intros Hu Hc Hp Hcoll.
  rewrite (delete_permitted request cid s u c Hu Hc Hp), Hcoll. simpl.
  repeat split.
  - apply lookup_delete_eq.
  - intros cid' Hne. apply lookup_delete_ne. congruence.
Qed.

(** The container lookup does not look at [frozen] or [version]. *)
Lemma container_lookup_toggled pk name tag now c :
  container_lookup pk name tag (toggled now c) = container_lookup pk name tag c.
Proof. reflexivity. Qed.

(** Freezing the target of a push that would have been accepted makes the
    same push fail with the frozen message; unfreezing a frozen target
    makes the push succeed.  The toggle is the only thing that opens or
    closes a name for pushes. *)
Theorem freeze_then_push timestamp request (w : World) auth owner pk coll
    cid c now toggle_request u :
  passes_checks timestamp request w auth owner pk coll ->
  target request pk w = Found cid c ->
  user toggle_request = Some u ->
  has_edit_permission c toggle_request = true ->
  let w1 := snd (toggle now toggle_request cid w) in
  (Container.frozen c = false ->
   push timestamp request w1 =
   (inl (PermissionDenied
           (get_short_uri (toggled now c) +:+
            " is frozen, push not allowed.")), w1)) /\
  (Container.frozen c = true ->
   exists w2, push timestamp request w1 = (inr tt, w2) /\
              recipes w2 =
              (recipes w ++ [recipe_of_request request owner])%list).
Proof.
  intros Hchecks Htarget Hu Hp w1.
  destruct (objects_get_found _ _ _ _ Htarget) as [Hrow Hlookup].
  assert (Hw1 : w1 =
    {| collections := collections w;
       containers := <[cid := toggled now c]> (containers w);
       recipes := recipes w;
       scheduled := scheduled w;
       flash := flash w ++
                ["Container frozen set to " +:+
                 py_bool_str (negb (Container.frozen c)) +:+ "."] |}).
  { subst w1. rewrite (toggle_permitted _ now toggle_request cid w u c Hu Hrow Hp).
    reflexivity. }
  assert (Hchecks1 : passes_checks timestamp request w1 auth owner pk coll).
  { eapply passes_checks_same_tables; [|exact Hchecks].
    rewrite Hw1. reflexivity. }
  assert (Htarget1 : target request pk w1 = Found cid (toggled now c)).
  { rewrite Hw1. unfold target in *. cbn [containers].
    eapply objects_get_insert_found; [exact Htarget|].
    rewrite container_lookup_toggled. exact Hlookup. }
  rewrite (push_after_checks _ _ _ _ _ _ _ _ _ _ _ _ Hchecks1), Htarget1.
  split; intros Hf.
  - unfold toggled at 1. cbn [Container.frozen]. rewrite Hf. reflexivity.
  - unfold toggled at 1. cbn [Container.frozen]. rewrite Hf. simpl.
    eexists. split; [reflexivity|]. rewrite Hw1. reflexivity.
Qed.

(** Deleting the container a push is aimed at, frozen or not, opens its
    name again: the same push is accepted afterwards. *)
Theorem delete_then_push timestamp request (w : World) auth owner pk coll
    cid c delete_request u queue :
  passes_checks timestamp request w auth owner pk coll ->
  target request pk w = Found cid c ->
  user delete_request = Some u ->
  has_edit_permission c delete_request = true ->
  let s' := snd (delete delete_request cid
                        {| world := w; default_queue := queue |}) in
  containers (world s') !! cid = None /\
  exists w2, push timestamp request (world s') = (inr tt, w2) /\
             recipes w2 =
             (recipes w ++ [recipe_of_request request owner])%list.
Proof.
  intros Hchecks Htarget Hu Hp s'.
  destruct (objects_get_found _ _ _ _ Htarget) as [Hrow Hlookup].
  assert (Hs' : world s' = without w cid).
  { subst s'.
    rewrite (delete_permitted delete_request cid
               {| world := w; default_queue := queue |} u c Hu Hrow Hp).
    reflexivity. }
  rewrite Hs'. split; [apply lookup_delete_eq|].
  assert (Hchecks1 : passes_checks timestamp request (without w cid)
                                   auth owner pk coll).
  { eapply passes_checks_same_tables; [|exact Hchecks]. reflexivity. }
  assert (Htarget1 : target request pk (without w cid) = NoneFound).
  { unfold target in *. cbn [containers].
    eapply objects_get_delete_found. exact Htarget. }
  rewrite (push_after_checks _ _ _ _ _ _ _ _ _ _ _ _ Hchecks1), Htarget1.
  eexists. split; reflexivity.
Qed.

End Lifecycle.

(** Bob asks to delete "bar:latest": nothing happens. *)
Lemma delete_container_guard_witness :
  let (r, s') :=
    delete_container Samples.has_edit_permission Samples.get_absolute_url
      (Samples.page_request Samples.bob) 5
      {| world := Samples.world_frozen; default_queue := [] |} in
  r = inr (redirect "collections" None) /\
  containers (world s') = containers Samples.world_frozen /\
  default_queue s' = [].
Proof.
  pose proof (delete_container_guard
                Samples.has_edit_permission Samples.get_absolute_url
                (Samples.page_request Samples.bob) 5
                {| world := Samples.world_frozen; default_queue := [] |})
    as H.
  destruct (delete_container _ _ _ _ _) as [r s'].
  destruct H as [_ H].
  destruct (H Samples.bob
              (Samples.bar true (Some "2017-08-06T19:28:43.294175"))
              eq_refl eq_refl eq_refl)
    as (Hr & Hc & _ & Hq & _).
  repeat split; assumption.
Defined.

(** Alice deletes the frozen "bar:latest". *)
Lemma delete_container_effect_witness :
  let (r, s') :=
    delete_container Samples.has_edit_permission Samples.get_absolute_url
      (Samples.page_request Samples.alice) 5
      {| world := Samples.world_frozen; default_queue := [] |} in
  r = inr (redirect "/collections/foo" None) /\
  containers (world s') !! 5 = None /\
  default_queue s' = [{| enq_func := delete_build; enq_cid := 5 |}].
Proof.
  pose proof (delete_container_effect
                Samples.has_edit_permission Samples.get_absolute_url
                (Samples.page_request Samples.alice) 5
                {| world := Samples.world_frozen; default_queue := [] |}
                Samples.alice
                (Samples.bar true (Some "2017-08-06T19:28:43.294175"))
                Samples.foo eq_refl eq_refl eq_refl eq_refl)
    as H.
  destruct (delete_container _ _ _ _ _) as [r s'].
  destruct H as (Hr & Hc & _ & _ & _ & _ & Hq & _).
  repeat split; assumption.
Defined.

(** Alice freezes "bar:latest" at t1; her next push is refused. *)
Lemma freeze_then_push_witness :
  let w1 := snd (change_freeze_status Samples.has_edit_permission "t1"
                   (Samples.page_request Samples.alice) 5
                   Samples.world_new) in
  perform_create Samples.get_request_user Samples.validate_request
                 Samples.has_create_permission Samples.has_permission
                 Samples.get_short_uri "20190101T000000" Samples.push_bar w1 =
  (inl (PermissionDenied "foo/bar:latest is frozen, push not allowed."), w1).
Proof.
  intros w1.
  apply (proj1 (freeze_then_push
                  Samples.get_request_user Samples.validate_request
                  Samples.has_create_permission Samples.has_permission
                  Samples.get_short_uri Samples.has_edit_permission
                  "20190101T000000" Samples.push_bar Samples.world_new
                  "token-alice" Samples.alice 1 Samples.foo
                  5 (Samples.bar false None) "t1"
                  (Samples.page_request Samples.alice) Samples.alice
                  (alice_passes_checks "0101T000000" _)
                  eq_refl eq_refl eq_refl)).
  reflexivity.
Defined.

(** Alice deletes the frozen "bar:latest"; her next push is accepted. *)
Lemma delete_then_push_witness :
  let s' := snd (delete_container
                   Samples.has_edit_permission Samples.get_absolute_url
                   (Samples.page_request Samples.alice) 5
                   {| world := Samples.world_frozen; default_queue := [] |}) in
  exists w2,
    perform_create Samples.get_request_user Samples.validate_request
                   Samples.has_create_permission Samples.has_permission
                   Samples.get_short_uri "20190101T000000" Samples.push_bar
                   (world s') = (inr tt, w2) /\
    length (recipes w2) = 1%nat.
Proof.
  intros s'.
  destruct (delete_then_push
              Samples.get_request_user Samples.validate_request
              Samples.has_create_permission Samples.has_permission
              Samples.get_short_uri Samples.has_edit_permission
              Samples.get_absolute_url
              "20190101T000000" Samples.push_bar Samples.world_frozen
              "token-alice" Samples.alice 1 Samples.foo
              5 (Samples.bar true (Some "2017-08-06T19:28:43.294175"))
              (Samples.page_request Samples.alice) Samples.alice []
              (alice_passes_checks "0101T000000" _)
              eq_refl eq_refl eq_refl)
    as (_ & w2 & Hpush & Hrecipes).
  exists w2. split; [exact Hpush|]. rewrite Hrecipes. reflexivity.
Defined.

(** * More about the hooks *)

Section HookEdges.

Context {Params : Type}.
Variable load_params : string -> exn + Params.
Variable receive_github_hook : Request -> M Params HttpResponse.

Local Abbreviation World := (World Params).

(** A build notification never touches the store or the flash messages;
    it schedules at most one job, a [complete_build] for the container of
    the URL 10 seconds later, and only for a POST that names a stored
    container, whose body decodes and whose Content-Length is "47"; when it
    ends in an exception nothing was scheduled. *)
Theorem receive_build_schedules_only_if request cid (w : World) :
  let (r, w') := receive_build load_params request cid w in
  collections w' = collections w /\
  containers w' = containers w /\
  recipes w' = recipes w /\
  flash w' = flash w /\
  (r = inr (JsonResponseMessage "Notification Received" (Some 200)
                                (Some "Received")) \/ w' = w) /\
  (scheduled w' = scheduled w \/
   exists params,
     scheduled w' =
       (scheduled w ++ [{| delay_seconds := 10; func := complete_build;
                           job_cid := cid;
                           job_params := Some params |}])%list /\
     method request = "POST" /\
     is_Some (containers w !! cid) /\
     load_params (body request) = inr params /\
     META request !! "CONTENT_LENGTH" = Some "47").
Proof.
  unfold receive_build, bind, get_world.
  destruct (decide (method request = "POST")) as [Hm|Hm];
    [|simpl; repeat split; auto].
  destruct (containers w !! cid) as [c|] eqn:Hc;
    [|simpl; repeat split; auto].
  destruct (load_params (body request)) as [e|params] eqn:Hl;
    [simpl; repeat split; auto|].
  destruct (META request !! "CONTENT_LENGTH") as [len|] eqn:Hlen;
    [|simpl; repeat split; auto].
  destruct (decide (len = "47")) as [->|Hne]; simpl;
    [|repeat split; auto].
  repeat split; auto. right. exists params. repeat split; eauto.
Qed.

(** The errors of a POSTed build notification, in the order the view meets
    them: an unknown container, a body that does not decode, a missing
    Content-Length header.  Each ends the request with that exception and
    an unchanged world. *)
Theorem receive_build_errors request cid (w : World) :
  method request = "POST" ->
  (containers w !! cid = None ->
   receive_build load_params request cid w =
   (inl (DoesNotExist "Container"), w)) /\
  (forall e, is_Some (containers w !! cid) ->
             load_params (body request) = inl e ->
   receive_build load_params request cid w = (inl e, w)) /\
  (forall params, is_Some (containers w !! cid) ->
                  load_params (body request) = inr params ->
                  META request !! "CONTENT_LENGTH" = None ->
   receive_build load_params request cid w =
   (inl (KeyError "CONTENT_LENGTH"), w)).
Proof.
  intros Hm. unfold receive_build, bind, get_world.
  rewrite decide_True by exact Hm. repeat split.
  - intros ->. reflexivity.
  - intros e [c ->] ->. reflexivity.
  - intros params [c ->] -> ->. reflexivity.
Qed.

(** A POST to the webhook endpoint without a User-Agent header ends in a
    KeyError; no handler runs and the world is as it was. *)
Theorem receive_hook_without_user_agent request (w : World) :
  method request = "POST" ->
  META request !! "HTTP_USER_AGENT" = None ->
  receive_hook receive_github_hook request w =
  (inl (KeyError "HTTP_USER_AGENT"), w).
Proof.
  intros Hm Hua. unfold receive_hook.
  rewrite decide_True by exact Hm. rewrite Hua. reflexivity.
Qed.

End HookEdges.

(** A notification for container 5 with Content-Length "47". *)
Lemma receive_build_schedules_only_if_witness :
  let (r, w') :=
    receive_build Samples.load_params (Samples.notification "47") 5
                  Samples.world_new in
  containers w' = containers Samples.world_new /\
  (scheduled w' = [] \/
   exists params,
     scheduled w' = [{| delay_seconds := 10; func := complete_build;
                        job_cid := 5; job_params := Some params |}]).
Proof.
  pose proof (receive_build_schedules_only_if Samples.load_params
                (Samples.notification "47") 5 Samples.world_new) as H.
  destruct (receive_build _ _ _ _) as [r w'].
  destruct H as (_ & Hc & _ & _ & _ & [Hs | (params & Hs & _)]).
  - split; [exact Hc | left; exact Hs].
  - split; [exact Hc | right; exists params; exact Hs].
Defined.

(** A notification for a container that is not stored, one with an empty
    body, and one without Content-Length. *)
Lemma receive_build_errors_witness :
  receive_build Samples.load_params (Samples.notification "47") 9
                Samples.world_new =
  (inl (DoesNotExist "Container"), Samples.world_new) /\
  receive_build Samples.load_params (Samples.hook_request "POST" "curl/7.0")
                5 Samples.world_new =
  (inl DecodeError, Samples.world_new) /\
  receive_build (fun _ => inr tt) (Samples.hook_request "POST" "curl/7.0")
                5 Samples.world_new =
  (inl (KeyError "CONTENT_LENGTH"), Samples.world_new).
Proof.
  split; [|split].
  - apply (proj1 (receive_build_errors Samples.load_params
                    (Samples.notification "47") 9 Samples.world_new
                    eq_refl)).
    reflexivity.
  - apply (proj1 (proj2 (receive_build_errors Samples.load_params
                           (Samples.hook_request "POST" "curl/7.0") 5
                           Samples.world_new eq_refl))).
    + eexists. reflexivity.
    + reflexivity.
  - apply (proj2 (proj2 (receive_build_errors (fun _ => inr tt)
                           (Samples.hook_request "POST" "curl/7.0") 5
                           Samples.world_new eq_refl)) tt).
    + eexists. reflexivity.
    + reflexivity.
    + reflexivity.
Defined.

(** A POST that carries a token but no User-Agent. *)
Lemma receive_hook_without_user_agent_witness :
  receive_hook Samples.receive_github_hook Samples.push_bar
               Samples.world_new =
  (inl (KeyError "HTTP_USER_AGENT"), Samples.world_new).
Proof.
  apply (receive_hook_without_user_agent Samples.receive_github_hook
           Samples.push_bar Samples.world_new); reflexivity.
Defined.

(** * The page views of containers.py *)

Section PageFacts.

Context {Params Obj : Type}.
Variable collection_owner : Collection.t -> User.t.
Variable get_absolute_url : Collection.t -> string.
Variable container_tree : Container.t -> option (gmap string Obj).
Variable get_container_log : Container.t -> Obj.
Variable labels_of : Z -> Obj.

Local Abbreviation World := (World Params).
Local Abbreviation view_container :=
  (MainViews.view_container (Params:=Params) collection_owner container_tree).
Local Abbreviation container_details :=
  (MainViews.container_details (Params:=Params) collection_owner labels_of).
Local Abbreviation container_log :=
  (MainViews.container_log (Params:=Params) collection_owner
                           get_container_log).
Local Abbreviation container_tags :=
  (MainViews.container_tags (Params:=Params) (Obj:=Obj) collection_owner).
Local Abbreviation main_delete_container :=
  (MainViews.delete_container (Params:=Params) collection_owner
                              get_absolute_url).
Local Abbreviation is_owner request coll :=
  (User.id <$> user request = Some (User.id (collection_owner coll))).

(** The world with one more flash message. *)
Local Abbreviation told w text :=
  {| collections := collections w;
     containers := containers w;
     recipes := recipes w;
     scheduled := scheduled w;
     flash := flash w ++ [text] |}.

Lemma private_to_others_true request coll :
  Collection.private coll = true -> ~ is_owner request coll ->
  MainViews.private_to_others collection_owner request coll = true.
Proof.
  intros Hp Ho. unfold MainViews.private_to_others, MainViews.not_owner.
  rewrite Hp, (bool_decide_eq_false_2 _ Ho). reflexivity.
Qed.

Lemma private_to_others_false request coll :
  MainViews.private_to_others collection_owner request coll = false ->
  Collection.private coll = false \/ is_owner request coll.
Proof.
  unfold MainViews.private_to_others, MainViews.not_owner.
  destruct (Collection.private coll); [|left; reflexivity].
  simpl. intros H. right. apply negb_false_iff in H.
  apply bool_decide_eq_true in H. exact H.
Qed.

(** Fetching the container and its collection, as each view starts. *)
Ltac open_view :=
  unfold MainViews.view_container, MainViews.container_details,
         MainViews.container_log, MainViews.container_tags,
         MainViews.delete_container;
  unfold get_container, container_collection, bind, get_world; simpl.

(** The four pages of a container in a private collection are closed to
    everybody but the owner of the collection: the caller is sent to the
    list of collections with the message "This container is private.". *)
Theorem private_pages_guarded request cid (w : World) c coll :
  containers w !! cid = Some c ->
  collections w !! Container.collection c = Some coll ->
  Collection.private coll = true ->
  ~ is_owner request coll ->
  let turned_away : (exn + PageResult Obj) * World :=
    (inr (respond (redirect "collections" None)),
     told w "This container is private.") in
  view_container request cid w = turned_away /\
  container_details request cid w = turned_away /\
  container_log request cid w = turned_away /\
  container_tags request cid w = turned_away.
Proof.
  intros Hc Hcoll Hp Ho turned_away.
  pose proof (private_to_others_true request coll Hp Ho) as Hguard.
  repeat split; open_view; rewrite Hc; simpl; rewrite Hcoll; simpl;
    rewrite Hguard; reflexivity.
Qed.

(** When one of the four views renders a page, the world is as it was,
    the container asked for is stored and is the one in the context, and
    its collection is public or the caller is its owner. *)
Theorem page_rendered_only_if request cid (w w' : World) template context :
  view_container request cid w = (inr (render template context), w') \/
  container_details request cid w = (inr (render template context), w') \/
  container_log request cid w = (inr (render template context), w') \/
  container_tags request cid w = (inr (render template context), w') ->
  w' = w /\
  exists c coll,
    containers w !! cid = Some c /\
    collections w !! Container.collection c = Some coll /\
    (Collection.private coll = false \/ is_owner request coll) /\
    In ("container", ctx_container cid c) context.
Proof.
  intros H.
  destruct (containers w !! cid) as [c|] eqn:Hc.
  2:{ exfalso. revert H. open_view. rewrite Hc. simpl.
      intros [H|[H|[H|H]]]; discriminate. }
  destruct (collections w !! Container.collection c) as [coll|] eqn:Hcoll.
  2:{ exfalso. revert H. open_view. rewrite Hc. simpl. rewrite Hcoll. simpl.
      intros [H|[H|[H|H]]]; discriminate. }
  destruct (MainViews.private_to_others collection_owner request coll)
    eqn:Hguard.
  { exfalso. revert H. open_view. rewrite Hc. simpl. rewrite Hcoll. simpl.
    rewrite Hguard. intros [H|[H|[H|H]]]; discriminate. }
  apply private_to_others_false in Hguard as Hopen.
  revert H. open_view. rewrite Hc. simpl. rewrite Hcoll. simpl.
  rewrite Hguard.
  intros [H|[H|[H|H]]].
  - destruct (container_tree c) as [tree|]; [|discriminate].
    destruct (tree !! "graph"); [|discriminate].
    destruct (tree !! "files"); [|discriminate].
    injection H as <- <- <-. split; [reflexivity|].
    exists c, coll. repeat split; auto. left. reflexivity.
  - injection H as <- <- <-. split; [reflexivity|].
    exists c, coll. repeat split; auto. left. reflexivity.
  - injection H as <- <- <-. split; [reflexivity|].
    exists c, coll. repeat split; auto. left. reflexivity.
  - injection H as <- <- <-. split; [reflexivity|].
    exists c, coll. repeat split; auto. left. reflexivity.
Qed.

(** [view_container] for a caller who passes the privacy test: with a tree
    that has a graph and files the tree page is rendered; when the tree
    cannot be built, or lacks one of the two, the caller is sent to the
    page of the collection with a message and no exception escapes. *)
Theorem view_container_tree request cid (w : World) c coll :
  containers w !! cid = Some c ->
  collections w !! Container.collection c = Some coll ->
  Collection.private coll = false \/ is_owner request coll ->
  (forall tree graph files,
     container_tree c = Some tree ->
     tree !! "graph" = Some graph -> tree !! "files" = Some files ->
     view_container request cid w =
     (inr (render "singularity/container_tree.html"
                  [("container", ctx_container cid c);
                   ("graph", ctx_object graph);
                   ("files", ctx_object files)]), w)) /\
  (container_tree c = None \/
   (exists tree, container_tree c = Some tree /\
                 (tree !! "graph" = None \/ tree !! "files" = None)) ->
   view_container request cid w =
   (inr (respond (redirect "collection_details"
                           (Some (Container.collection c)))),
    told w
      "We had an issue retrieving files for this container! Try another build?")).
Proof.
  intros Hc Hcoll Hopen.
  assert (Hguard : MainViews.private_to_others collection_owner request coll
                   = false).
  { unfold MainViews.private_to_others, MainViews.not_owner.
    destruct Hopen as [-> | Ho]; [reflexivity|].
    rewrite (bool_decide_eq_true_2 _ Ho). apply andb_false_r. }
  split.
  - intros tree graph files Ht Hg Hf. open_view.
    rewrite Hc. simpl. rewrite Hcoll. simpl. rewrite Hguard, Ht, Hg, Hf.
    reflexivity.
  - intros Hfail. open_view.
    rewrite Hc. simpl. rewrite Hcoll. simpl. rewrite Hguard.
    destruct Hfail as [-> | (tree & -> & [Hg | Hf])]; [reflexivity | |].
    + rewrite Hg. reflexivity.
    + rewrite Hf. destruct (tree !! "graph"); reflexivity.
Qed.

(** [delete_container] of containers.py deletes nothing: whoever asks, the
    tables are as they were afterwards; the owner of the collection is
    told "Container successfully deleted." while the container is still
    there. *)
Theorem main_delete_container_keeps request cid (w : World) :
  let (r, w') := main_delete_container request cid w in
  collections w' = collections w /\
  containers w' = containers w /\
  recipes w' = recipes w /\
  scheduled w' = scheduled w /\
  forall c coll,
    containers w !! cid = Some c ->
    collections w !! Container.collection c = Some coll ->
    is_owner request coll ->
    r = inr (redirect (get_absolute_url coll) None) /\
    flash w' = (flash w ++ ["Container successfully deleted."])%list /\
    containers w' !! cid = Some c.
Proof.
  open_view.
  destruct (containers w !! cid) as [c|] eqn:Hc; simpl.
  2:{ do 4 (split; [reflexivity|]). intros c0 coll0 Hc0. discriminate. }
  destruct (collections w !! Container.collection c) as [coll|] eqn:Hcoll;
    simpl.
  2:{ do 4 (split; [reflexivity|]). intros c0 coll0 Hc0 Hcoll0.
      assert (c0 = c) by congruence. subst c0. congruence. }
  destruct (MainViews.not_owner collection_owner request coll) eqn:Ho; simpl;
    do 4 (split; [reflexivity|]); intros c0 coll0 Hc0 Hcoll0 Hown;
    assert (c0 = c) by congruence; subst c0;
    assert (coll0 = coll) by congruence; subst coll0.
  - unfold MainViews.not_owner in Ho.
    rewrite (bool_decide_eq_true_2 _ Hown) in Ho. discriminate.
  - repeat split. exact Hc.
Qed.

End PageFacts.

(** Alice asks for the pages of "vault", which is in carol's private
    collection. *)
Lemma private_pages_guarded_witness :
  let turned_away : (exn + PageResult string) * World unit :=
    (inr (respond (redirect "collections" None)),
     {| collections := collections Samples.world_private;
        containers := containers Samples.world_private;
        recipes := []; scheduled := [];
        flash := ["This container is private."] |}) in
  MainViews.view_container Samples.collection_owner Samples.container_tree
    (Samples.page_request Samples.alice) 8 Samples.world_private
  = turned_away /\
  MainViews.container_log Samples.collection_owner Samples.get_container_log
    (Samples.page_request Samples.alice) 8 Samples.world_private
  = turned_away.
Proof.
  intros turned_away.
  destruct (private_pages_guarded
              Samples.collection_owner Samples.container_tree
              Samples.get_container_log Samples.labels_of
              (Samples.page_request Samples.alice) 8 Samples.world_private
              Samples.vault Samples.secrets eq_refl eq_refl eq_refl)
    as (Hview & _ & Hlog & _).
  - vm_compute. discriminate.
  - split; [exact Hview | exact Hlog].
Defined.

(** Carol sees the tags page of her "vault". *)
Lemma page_rendered_only_if_witness :
  exists c coll,
    containers Samples.world_private !! 8 = Some c /\
    collections Samples.world_private !! Container.collection c = Some coll /\
    (Collection.private coll = false \/
     User.id <$> user (Samples.page_request Samples.carol) =
     Some (User.id (Samples.collection_owner coll))) /\
    In ("container", ctx_container 8 c)
       [("container", ctx_container (Obj:=string) 8 Samples.vault)].
Proof.
  destruct (page_rendered_only_if
              Samples.collection_owner Samples.container_tree
              Samples.get_container_log Samples.labels_of
              (Samples.page_request Samples.carol) 8
              Samples.world_private Samples.world_private
              "containers/container_tags.html"
              [("container", ctx_container 8 Samples.vault)]
              (or_intror (or_intror (or_intror eq_refl))))
    as [_ H].
  exact H.
Defined.

(** Carol looks at the tree of "vault"; for "bar", whose tree cannot be
    built, alice is sent back to the collection. *)
Lemma view_container_tree_witness :
  MainViews.view_container Samples.collection_owner Samples.container_tree
    (Samples.page_request Samples.carol) 8 Samples.world_private =
  (inr (render "singularity/container_tree.html"
               [("container", ctx_container 8 Samples.vault);
                ("graph", ctx_object "nodes");
                ("files", ctx_object "/bin /etc")]),
   Samples.world_private) /\
  fst (MainViews.view_container Samples.collection_owner
         Samples.container_tree
         (Samples.page_request Samples.alice) 5 Samples.world_private) =
  inr (respond (redirect "collection_details" (Some 1))).
Proof.
  split.
  - apply (proj1 (view_container_tree
                    Samples.collection_owner Samples.container_tree
                    (Samples.page_request Samples.carol) 8
                    Samples.world_private Samples.vault Samples.secrets
                    eq_refl eq_refl (or_intror eq_refl))
                 (<[ "graph" := "nodes" ]> {[ "files" := "/bin /etc" ]}));
      reflexivity.
  - rewrite (proj2 (view_container_tree
                      Samples.collection_owner Samples.container_tree
                      (Samples.page_request Samples.alice) 5
                      Samples.world_private (Samples.bar false None)
                      Samples.foo eq_refl eq_refl (or_introl eq_refl))
                   (or_introl eq_refl)).
    reflexivity.
Defined.

(** Carol "deletes" her "vault" through containers.py. *)
Lemma main_delete_container_keeps_witness :
  let (r, w') :=
    MainViews.delete_container Samples.collection_owner
      Samples.get_absolute_url (Samples.page_request Samples.carol) 8
      Samples.world_private in
  r = inr (redirect "/collections/secrets" None) /\
  flash w' = ["Container successfully deleted."] /\
  containers w' !! 8 = Some Samples.vault.
Proof.
  pose proof (main_delete_container_keeps
                Samples.collection_owner Samples.get_absolute_url
                (Samples.page_request Samples.carol) 8
                Samples.world_private) as H.
  destruct (MainViews.delete_container _ _ _ _ _) as [r w'].
  destruct H as (_ & _ & _ & _ & H).
  exact (H Samples.vault Samples.secrets eq_refl eq_refl eq_refl).
Defined.

(** * Connecting GitHub *)

Section ConnectFacts.

Context {Params Obj : Type}.
Variable list_repos : User.t -> list Repo.

Local Abbreviation World := (World Params).
Local Abbreviation connect :=
  (connect_github (Params:=Params) (Obj:=Obj) list_repos).
Local Abbreviation owns u w name :=
  (exists pk coll, collections w !! pk = Some coll /\
                   User.id u ∈ Collection.owners coll /\
                   Collection.name coll = name).

(** The names the view collects are the names of the collections the user
    is an owner of. *)
Lemma collection_names_owned_by_spec u (w : World) name :
  In name (collection_names_owned_by u w) <-> owns u w name.
Proof.
  unfold collection_names_owned_by. rewrite in_map_iff. split.
  - intros ([pk coll] & Hname & Hin). apply filter_In in Hin.
    destruct Hin as [Hin Hown]. simpl in *.
    apply in_map_to_list in Hin. apply bool_decide_eq_true in Hown.
    exists pk, coll. auto.
  - intros (pk & coll & Hrow & Hown & Hname).
    exists (pk, coll). split; [exact Hname|].
    apply filter_In. split; [apply in_map_to_list; exact Hrow|].
    simpl. apply bool_decide_eq_true. exact Hown.
Qed.

Lemma repos_not_taken_spec names contenders :
  Forall (fun repo : Repo => is_Some (repo !! "full_name")) contenders ->
  exists repos,
    repos_not_taken names contenders = inr repos /\
    sublist repos contenders /\
    forall repo,
      In repo repos <->
      In repo contenders /\
      forall name, repo !! "full_name" = Some name -> ~ In name names.
Proof.
  induction contenders as [|repo contenders IH]; intros Hall.
  - exists []. split; [reflexivity|]. split; [constructor|].
    intros repo. simpl. tauto.
  - inversion Hall as [|? ? [name Hname] Hrest]; subst.
    destruct (IH Hrest) as (repos & Heq & Hsub & Hin).
    simpl. rewrite Hname, Heq.
    destruct (bool_decide (name ∈ names)) eqn:Htaken.
    + apply bool_decide_eq_true in Htaken. apply list_elem_of_In in Htaken.
      exists repos. split; [reflexivity|].
      split; [apply sublist_cons_r; left; exact Hsub|].
      intros r. rewrite Hin. split.
      * intros [Hr Hfree]. split; [right; exact Hr | exact Hfree].
      * intros [[<- | Hr] Hfree]; [|split; assumption].
        exfalso. exact (Hfree name Hname Htaken).
    + apply bool_decide_eq_false in Htaken.
      rewrite list_elem_of_In in Htaken.
      exists (repo :: repos). split; [reflexivity|].
      split; [apply sublist_skip; exact Hsub|].
      intros r. simpl. rewrite Hin. split.
      * intros [<- | [Hr Hfree]].
        -- split; [left; reflexivity|].
           intros name' Hname'. congruence.
        -- split; [right; exact Hr | exact Hfree].
      * intros [[<- | Hr] Hfree]; [left; reflexivity|].
        right. split; assumption.
Qed.

Lemma repos_not_taken_key_error names contenders :
  Exists (fun repo : Repo => repo !! "full_name" = None) contenders ->
  repos_not_taken names contenders = inl (KeyError "full_name").
Proof.
  induction contenders as [|repo contenders IH]; intros Hex.
  - inversion Hex.
  - simpl. destruct (repo !! "full_name") as [name|] eqn:Hname;
      [|reflexivity].
    inversion Hex as [? ? Hhead | ? ? Htail]; subst; [congruence|].
    rewrite (IH Htail). reflexivity.
Qed.

(** For a logged-in user whose repositories all carry a [full_name], the
    page offers exactly the repositories whose [full_name] is not the name
    of a collection the user already owns, in the order GitHub lists them,
    and the world is not changed; one repository without [full_name] ends
    the view in a KeyError. *)
Theorem connect_github_offers request u (w : World) :
  user request = Some u ->
  (Forall (fun repo : Repo => is_Some (repo !! "full_name")) (list_repos u) ->
   exists repos,
     connect request w =
     (inr (render "google_build/add_collection.html"
                  [("repos", ctx_repos repos)]), w) /\
     sublist repos (list_repos u) /\
     forall repo,
       In repo repos <->
       In repo (list_repos u) /\
       forall name, repo !! "full_name" = Some name -> ~ owns u w name) /\
  (Exists (fun repo : Repo => repo !! "full_name" = None) (list_repos u) ->
   connect request w = (inl (KeyError "full_name"), w)).
Proof.
  intros Hu. unfold connect_github. rewrite Hu. unfold bind, get_world.
  split.
  - intros Hall.
    destruct (repos_not_taken_spec (collection_names_owned_by u w)
                (list_repos u) Hall) as (repos & -> & Hsub & Hin).
    exists repos. split; [reflexivity|]. split; [exact Hsub|].
    intros repo. rewrite Hin. split; intros [Hr Hfree]; (split; [exact Hr|]);
      intros name Hname Hown; apply (Hfree name Hname);
      apply collection_names_owned_by_spec; exact Hown.
  - intros Hex. rewrite (repos_not_taken_key_error _ _ Hex). reflexivity.
Qed.

End ConnectFacts.

(** Alice owns "foo"; of her repositories "alice/tools" is offered and
    "foo" is not. *)
Lemma connect_github_offers_witness :
  exists repos,
    connect_github (Params:=unit) (Obj:=string) Samples.list_repos
                   (Samples.page_request Samples.alice) Samples.world_new =
    (inr (render "google_build/add_collection.html"
                 [("repos", ctx_repos repos)]), Samples.world_new) /\
    In (Samples.repo "alice/tools") repos /\
    ~ In (Samples.repo "foo") repos.
Proof.
  destruct (proj1 (connect_github_offers (Obj:=string) Samples.list_repos
                     (Samples.page_request Samples.alice) Samples.alice
                     Samples.world_new eq_refl))
    as (repos & Heq & _ & Hin).
  - repeat constructor; eexists; reflexivity.
  - exists repos. split; [exact Heq|]. split.
    + apply Hin. split; [right; left; reflexivity|].
      intros name Hname (pk & coll & Hrow & _ & Hcoll).
      simpl in Hrow. apply lookup_singleton_Some in Hrow.
      destruct Hrow as [_ <-]. vm_compute in Hname. simpl in Hcoll.
      congruence.
    + intros Hfoo. apply Hin in Hfoo. destruct Hfoo as [_ Hfree].
      apply (Hfree "foo" eq_refl). exists 1, Samples.foo.
      repeat split. simpl. constructor.
Defined.
